(** * Data-contract execution engine: validation pipeline and SLA enforcement

    A shallow embedding of [engine/validation_engine.py],
    [engine/sla_enforcer.py], [engine/pipeline_generator.py],
    [engine/contract_parser.py] and [runtime/lambda_handler.py], followed
    by the properties of the validation pipeline and of the handler.

    Conventions of the embedding.
    - A Python [dict] with string keys is a [gmap string _]; [d.get(k)] is
      a lookup with default [PNone]; [k in d] is [is_Some (d !! k)].
    - Configuration values typed [Any] are [pyval]s: [None], booleans,
      integers, floats, strings and nested dictionaries.  Sequences do not
      occur among the schema, SLA and constraint values the engine reads.
    - A float is the rational it denotes ([Q]); the not-a-number produced
      by an empty reduction is kept apart as the absence of a value.  The
      conversion of a NumPy integer to a double, made where it is ordered
      against a float, is [float_of_int].  The one division of the engine
      is taken exactly, where CPython returns the double nearest to the
      quotient: on a table of fewer than [2^53] cells the two lie within
      the same bounds 0 and 1 and are 1 together, and the statement that
      holds the completeness against any threshold (C6) speaks of the
      recorded value.  What CPython prints for a float, for a dictionary and for an
      exception is left to an interface ([PyText]).
    - The cells of a table are scalars; the tables that the constraint
      checker is modelled on hold integers.
    - A method is a computation in a small state-and-exception monad over
      the objects it can reach.  Every assignment pushes the new state on a
      history, so that intermediate states can be spoken about.
    - The wall clock is an input: the reading taken by [enforce_sla] is the
      argument [now].
    - [print] diagnostics go to standard output and influence no returned
      value; they are not part of the model. *)

From Stdlib Require Import ZArith QArith String.
From stdpp Require Import gmap strings list pretty.

Set Warnings "-register-all".
Local Open Scope Z_scope.

(** ** Python values, exceptions and the operations the engine applies *)

Module Py.

Inductive pyval : Type :=
  | PNone
  | PBool (b : bool)
  | PInt (z : Z)
  | PFloat (q : Q)
  | PStr (s : string)
  | PDict (d : gmap string pyval).

Inductive exn : Type :=
  | TypeError (op : string) (operand : pyval)
  | KeyError (key : pyval)
  | AttributeError (obj : pyval) (attr : string)
  | ValueError (spec : string) (obj : pyval)
  | ZeroDivisionError
  | AmbiguousTruth   (* ValueError: the truth value of a Series is ambiguous *)
  | NotAScalar.      (* TypeError: cannot convert the series to int *)

Inductive outcome (A : Type) : Type :=
  | Ok (a : A)
  | Raise (e : exn).
Arguments Ok {A} a.
Arguments Raise {A} e.

(** Text that CPython and NumPy produce and the source only passes on. *)
Class PyText := {
  str_float : Q → string;               (* str(x) for a float x *)
  str_dict : gmap string pyval → string; (* str(d) for a dict d *)
  format_pct : Q → string;              (* format(x, ".2%") *)
  str_exn : exn → string                (* str(e) for a caught exception *)
}.

(** [d.get(k)] *)
Definition dict_get (d : gmap string pyval) (k : string) : pyval :=
  default PNone (d !! k).

(** [v == s] for a string literal [s] *)
Definition eq_str (v : pyval) (s : string) : bool :=
  match v with
  | PStr x => bool_decide (x = s)
  | _ => false
  end.

(** The numeric reading of a value: [bool] is a subclass of [int]. *)
Definition as_number (v : pyval) : option Q :=
  match v with
  | PBool b => Some (if b then 1%Q else 0%Q)
  | PInt z => Some (inject_Z z)
  | PFloat q => Some q
  | _ => None
  end.

Definition Qltb (x y : Q) : bool := negb (Qle_bool y x).

(** [x < v] and [x > v] for a number [x]: an ordering against a value
    that is not a number raises [TypeError]. *)
Definition lt_number (x : Q) (v : pyval) : outcome bool :=
  match as_number v with
  | Some y => Ok (Qltb x y)
  | None => Raise (TypeError "<" v)
  end.

Definition gt_number (x : Q) (v : pyval) : outcome bool :=
  match as_number v with
  | Some y => Ok (Qltb y x)
  | None => Raise (TypeError ">" v)
  end.

(** The same orderings when the left operand is NumPy's not-a-number:
    false against every number. *)
Definition lt_nan (v : pyval) : outcome bool :=
  match as_number v with
  | Some _ => Ok false
  | None => Raise (TypeError "<" v)
  end.

Definition gt_nan (v : pyval) : outcome bool :=
  match as_number v with
  | Some _ => Ok false
  | None => Raise (TypeError ">" v)
  end.

(** [float(z)] for a 64-bit integer: the double nearest to it, a tie
    going to the even significand.  An integer of magnitude up to [2^53]
    is a double. *)
Definition float_of_int (z : Z) : Q :=
  let a := Z.abs z in
  if a <=? 2 ^ 53 then inject_Z z
  else
    let e := Z.log2 a - 52 in
    let m := Z.shiftr a e in
    let r := Z.land a (Z.ones e) in
    let half := Z.shiftl 1 (e - 1) in
    let m' := if (r <? half) || ((r =? half) && Z.even m) then m else m + 1 in
    inject_Z (Z.sgn z * Z.shiftl m' e).

(** [x < v] and [x > v] for a NumPy integer [x]: against a Python float
    both sides are compared as doubles, against an integer exactly. *)
Definition np_lt (x : Z) (v : pyval) : outcome bool :=
  match v with
  | PFloat y => Ok (Qltb (float_of_int x) y)
  | _ => lt_number (inject_Z x) v
  end.

Definition np_gt (x : Z) (v : pyval) : outcome bool :=
  match v with
  | PFloat y => Ok (Qltb y (float_of_int x))
  | _ => gt_number (inject_Z x) v
  end.

(** [a / b] on integers.  The built-in division raises on a zero divisor;
    the only division of the engine is guarded by [total_cells > 0].  The
    quotient is the exact one; CPython returns the double nearest to it. *)
Definition truediv (a b : Z) : outcome Q :=
  if b =? 0 then Raise ZeroDivisionError
  else Ok (inject_Z a / inject_Z b)%Q.

Section Text.
Context `{PyText}.

(** [str(v)], as an f-string placeholder [{v}] renders it *)
Definition py_str (v : pyval) : string :=
  match v with
  | PNone => "None"
  | PBool b => if b then "True" else "False"
  | PInt z => pretty z
  | PFloat q => str_float q
  | PStr s => s
  | PDict d => str_dict d
  end.

(** The placeholder [{v:.2%}]: defined on numbers only. *)
Definition py_format_pct (v : pyval) : outcome string :=
  match as_number v with
  | Some q => Ok (format_pct q)
  | None => Raise (ValueError ".2%" v)
  end.
End Text.

End Py.
Export Py.

(** ** Computations over a mutable state with a history *)

Module Machine.

Section Defs.
Context {St : Type}.

(** [cur] is the state now, [past] the earlier states, latest first. *)
Record trace : Type := { cur : St; past : list St }.

Definition M (A : Type) : Type := trace → outcome A * trace.

Definition ret {A} (a : A) : M A := λ t, (Ok a, t).

Definition bind {A B} (m : M A) (k : A → M B) : M B :=
  λ t, match m t with
       | (Ok a, t') => k a t'
       | (Raise e, t') => (Raise e, t')
       end.

Definition raise {A} (e : exn) : M A := λ t, (Raise e, t).

Definition lift {A} (o : outcome A) : M A := λ t, (o, t).

Definition read : M St := λ t, (Ok (cur t), t).

(** An assignment: the state changes and the old one joins the history. *)
Definition write (f : St → St) : M unit :=
  λ t, (Ok tt, {| cur := f (cur t); past := cur t :: past t |}).

(** [try: body except Exception as e: handler e]; the state reached when
    the exception was raised is the one the handler starts from. *)
Definition try_except {A} (body : M A) (handler : exn → M A) : M A :=
  λ t, match body t with
       | (Ok a, t') => (Ok a, t')
       | (Raise e, t') => handler e t'
       end.

Definition start (s : St) : trace := {| cur := s; past := [] |}.

(** All states of a run, in the order they arose. *)
Definition states (t : trace) : list St := rev (cur t :: past t).
End Defs.

Arguments trace : clear implicits.
Arguments M : clear implicits.

End Machine.
Export Machine.

Notation "'do' x <- m ; k" := (bind m (λ x, k))
  (at level 10, x name, m at level 100, k at level 200).
Notation "'perform' m ; k" := (bind m (λ _, k))
  (at level 10, m at level 100, k at level 200).

(** ** The part of pandas the engine uses *)

Module pd.

Section Frame.
Context {V : Type}.

(** A column of nullable values; [None] is the missing marker. *)
Definition Series : Type := list (option V).

(** A table: the length of its index and its labelled columns, in order.
    In a well-formed table the labels are distinct and every column has
    [index_len] entries. *)
Record DataFrame : Type := {
  index_len : nat;
  data : list (string * Series)
}.

(** [len(df)] *)
Definition len (df : DataFrame) : Z := Z.of_nat (index_len df).

(** [df.columns] *)
Definition columns (df : DataFrame) : list string := (data df).*1.

(** [s.isna().sum()] *)
Definition isna_sum (s : Series) : Z :=
  Z.of_nat (length (filter (λ c, c = None) s)).

(** [df.isna().sum().sum()] *)
Definition isna_sum_sum (df : DataFrame) : Z :=
  foldr (λ c acc, isna_sum c.2 + acc) 0 (data df).

(** The columns under a label, in the order of the table. *)
Definition labelled (name : string) (cs : list (string * Series))
    : list Series :=
  (filter (λ c : string * Series, c.1 = name) cs).*2.

(** What [df[key]] is: a column when one column has the label, a table of
    the columns under it when several have. *)
Inductive selection : Type :=
  | One_series (s : Series)
  | Sub_frame (cols : list Series).

(** [df[key]]: only the label of a column selects.  With any other key
    the lookup fails; every caller catches every exception, so which one
    it is does not matter. *)
Definition getitem (df : DataFrame) (key : pyval) : outcome selection :=
  match key with
  | PStr name =>
      match labelled name (data df) with
      | [] => Raise (KeyError key)
      | [s] => Ok (One_series s)
      | cols => Ok (Sub_frame cols)
      end
  | _ => Raise (KeyError key)
  end.

(** Row [i] of the table. *)
Definition row (df : DataFrame) (i : nat) : list (option V) :=
  (λ c : string * Series, mjoin (c.2 !! i)) <$> data df.

Definition rows (df : DataFrame) : list (list (option V)) :=
  row df <$> seq 0 (index_len df).

(** [df.empty] *)
Definition empty (df : DataFrame) : bool :=
  bool_decide (index_len df = 0%nat) || bool_decide (data df = []).

(** [len(df.drop_duplicates())]: an empty table is returned as it is;
    otherwise the first occurrence of every row is kept, two missing
    values counting as equal. *)
Definition drop_duplicates_len `{EqDecision V} (df : DataFrame) : Z :=
  if empty df then len df
  else Z.of_nat (length (remove_dups (rows df))).
End Frame.

Arguments Series : clear implicits.
Arguments DataFrame : clear implicits.
Arguments selection : clear implicits.

(** [s.min()] and [s.max()] on a numeric column skip missing values; the
    result is not-a-number ([None]) when nothing is left. *)
Definition series_min (s : Series Z) : option Z :=
  foldr (λ c acc, match c, acc with
                  | Some x, Some y => Some (Z.min x y)
                  | Some x, None => Some x
                  | None, _ => acc
                  end) None s.

Definition series_max (s : Series Z) : option Z :=
  foldr (λ c acc, match c, acc with
                  | Some x, Some y => Some (Z.max x y)
                  | Some x, None => Some x
                  | None, _ => acc
                  end) None s.

End pd.

(** ** [engine/sla_enforcer.py] *)

Module SLAEnforcer.

(** The dictionary [enforce_sla] builds and returns. *)
Record sla_result : Type := {
  timestamp : string;
  sla_passed : bool;
  violations : list string;
  metrics : gmap string pyval
}.

(** The instance: [self.sla_rules] and [self.metrics]. *)
Record t : Type := {
  sla_rules : gmap string pyval;
  self_metrics : gmap string pyval
}.

(** [SLAEnforcer.__init__] *)
Definition init (rules : gmap string pyval) : t :=
  {| sla_rules := rules; self_metrics := ∅ |}.

(** What a call of [enforce_sla] can reach: the instance and its local
    dictionary [results]. *)
Record frame : Type := { self : t; results : sla_result }.

(** [results["metrics"][k] = v] *)
Definition set_metric (k : string) (v : pyval) : M frame unit :=
  write (λ f, {| self := self f;
                 results := {| timestamp := timestamp (results f);
                               sla_passed := sla_passed (results f);
                               violations := violations (results f);
                               metrics := <[k := v]> (metrics (results f)) |} |}).

(** [results["sla_passed"] = b] *)
Definition set_sla_passed (b : bool) : M frame unit :=
  write (λ f, {| self := self f;
                 results := {| timestamp := timestamp (results f);
                               sla_passed := b;
                               violations := violations (results f);
                               metrics := metrics (results f) |} |}).

(** [results["violations"].append(msg)] *)
Definition append_violation (msg : string) : M frame unit :=
  write (λ f, {| self := self f;
                 results := {| timestamp := timestamp (results f);
                               sla_passed := sla_passed (results f);
                               violations := violations (results f) ++ [msg];
                               metrics := metrics (results f) |} |}).

Section Enforce.
Context `{PyText} {V : Type}.

Definition min_rows_message (row_count : Z) (min_rows : pyval) : string :=
  "Row count " +:+ pretty row_count +:+ " is less than minimum "
    +:+ py_str min_rows.

Definition max_rows_message (row_count : Z) (max_rows : pyval) : string :=
  "Row count " +:+ pretty row_count +:+ " exceeds maximum "
    +:+ py_str max_rows.

Definition completeness_message (completeness threshold : string) : string :=
  "Completeness " +:+ completeness +:+ " is below threshold " +:+ threshold.

Definition error_message (e : exn) : string :=
  "Error enforcing SLA: " +:+ str_exn e.

(** [if "min_rows" in self.sla_rules: ...] *)
Definition check_min_rows (row_count : Z) : M frame unit :=
  do f <- read;
  match sla_rules (self f) !! "min_rows" with
  | Some min_rows =>
      perform set_metric "row_count" (PInt row_count);
      do below <- lift (lt_number (inject_Z row_count) min_rows);
      if below then
        perform set_sla_passed false;
        append_violation (min_rows_message row_count min_rows)
      else ret tt
  | None => ret tt
  end.

(** [if "max_rows" in self.sla_rules: ...] *)
Definition check_max_rows (row_count : Z) : M frame unit :=
  do f <- read;
  match sla_rules (self f) !! "max_rows" with
  | Some max_rows =>
      do above <- lift (gt_number (inject_Z row_count) max_rows);
      if above then
        perform set_sla_passed false;
        append_violation (max_rows_message row_count max_rows)
      else ret tt
  | None => ret tt
  end.

(** [if "completeness_threshold" in self.sla_rules: ...] *)
Definition check_completeness (row_count : Z) (df : pd.DataFrame V)
    : M frame unit :=
  do f <- read;
  match sla_rules (self f) !! "completeness_threshold" with
  | Some threshold =>
      let total_cells := row_count * Z.of_nat (length (pd.columns df)) in
      let null_cells := pd.isna_sum_sum df in
      do completeness <-
        (if 0 <? total_cells
         then lift (truediv (total_cells - null_cells) total_cells)
         else ret 1%Q);
      perform set_metric "completeness" (PFloat completeness);
      do below <- lift (lt_number completeness threshold);
      if below then
        perform set_sla_passed false;
        do shown <- lift (py_format_pct (PFloat completeness));
        do bound <- lift (py_format_pct threshold);
        append_violation (completeness_message shown bound)
      else ret tt
  | None => ret tt
  end.

(** The body of the [try] block, up to [return results]. *)
Definition enforce_sla_try (df : pd.DataFrame V) : M frame sla_result :=
  let row_count := pd.len df in
  perform check_min_rows row_count;
  perform check_max_rows row_count;
  perform check_completeness row_count df;
  do f <- read;
  ret (results f).

(** The [except Exception as e] block. *)
Definition enforce_sla_except (e : exn) : M frame sla_result :=
  perform set_sla_passed false;
  perform append_violation (error_message e);
  do f <- read;
  ret (results f).

(** The run of [enforce_sla]: the local [results] is created, then the
    [try] statement executes. *)
Definition enforce_sla_run (s : t) (now : string) (df : pd.DataFrame V)
    : outcome sla_result * trace frame :=
  let results0 := {| timestamp := now; sla_passed := true;
                     violations := []; metrics := ∅ |} in
  try_except (enforce_sla_try df) enforce_sla_except
    (start {| self := s; results := results0 |}).

(** [SLAEnforcer.enforce_sla]: what the call returns (or raises) and the
    instance afterwards. *)
Definition enforce_sla (s : t) (now : string) (df : pd.DataFrame V)
    : outcome sla_result * t :=
  let r := enforce_sla_run s now df in (r.1, self (cur r.2)).

(** The outcome of the [try] block alone, before any handler runs. *)
Definition enforce_sla_try_outcome (s : t) (now : string)
    (df : pd.DataFrame V) : outcome sla_result :=
  let results0 := {| timestamp := now; sla_passed := true;
                     violations := []; metrics := ∅ |} in
  (enforce_sla_try df (start {| self := s; results := results0 |})).1.
End Enforce.

(** [SLAEnforcer.get_metrics] *)
Definition get_metrics (s : t) : gmap string pyval := self_metrics s.

(** A client that calls [enforce_sla] once per clock reading and table,
    discarding the results. *)
Fixpoint enforce_all `{PyText} {V : Type} (s : t)
    (calls : list (string * pd.DataFrame V)) : t :=
  match calls with
  | [] => s
  | (now, df) :: rest => enforce_all (enforce_sla s now df).2 rest
  end.

End SLAEnforcer.

(** ** [engine/validation_engine.py] *)

Module ValidationEngine.

(** The instance: [self.schema]. *)
Record t : Type := { schema : gmap string pyval }.

(** [ValidationEngine.__init__] *)
Definition init (schema : gmap string pyval) : t := {| schema := schema |}.

(** The dictionary [validate_data_quality] returns; [error] is the entry
    that only the [except] branch adds. *)
Record quality_results : Type := {
  total_rows : Z;
  null_counts : gmap string Z;
  duplicate_rows : Z;
  validation_passed : bool;
  error : option string
}.

(** [d.keys()]: only a dictionary has the method. *)
Definition keys (v : pyval) : outcome (list string) :=
  match v with
  | PDict d => Ok (map_to_list d).*1
  | _ => Raise (AttributeError v "keys")
  end.

Section Frame.
Context {V : Type}.

(** The loop over the declared columns: [False] at the first one the
    table lacks. *)
Fixpoint all_present (names : list string) (df : pd.DataFrame V) : bool :=
  match names with
  | [] => true
  | col_name :: rest =>
      if bool_decide (col_name ∉ pd.columns df) then false
      else all_present rest df
  end.

(** The [try] block of [validate_schema]. *)
Definition validate_schema_try (self : t) (df : pd.DataFrame V)
    : outcome bool :=
  let contract_columns := default (PDict ∅) (schema self !! "columns") in
  match keys contract_columns with
  | Ok names => Ok (all_present names df)
  | Raise e => Raise e
  end.

(** [ValidationEngine.validate_schema] *)
Definition validate_schema (self : t) (df : pd.DataFrame V) : bool :=
  match validate_schema_try self df with
  | Ok b => b
  | Raise _ => false
  end.

(** The loop [for col in df.columns] of [validate_data_quality], with
    the counts stored so far.  Under a label that several columns carry,
    [df[col].isna().sum()] is a Series and [int] refuses it; the counts
    stored before stay. *)
Fixpoint count_nulls (df : pd.DataFrame V) (cols : list string)
    (counts : gmap string Z) : gmap string Z * option exn :=
  match cols with
  | [] => (counts, None)
  | col :: rest =>
      match pd.getitem df (PStr col) with
      | Ok (pd.One_series s) =>
          count_nulls df rest (<[col := pd.isna_sum s]> counts)
      | Ok (pd.Sub_frame _) => (counts, Some NotAScalar)
      | Raise e => (counts, Some e)
      end
  end.

(** [ValidationEngine.validate_data_quality] *)
Definition validate_data_quality `{PyText} `{EqDecision V} (self : t)
    (df : pd.DataFrame V) : quality_results :=
  match count_nulls df (pd.columns df) ∅ with
  | (counts, None) =>
      {| total_rows := pd.len df;
         null_counts := counts;
         duplicate_rows := pd.len df - pd.drop_duplicates_len df;
         validation_passed := true;
         error := None |}
  | (counts, Some e) =>
      {| total_rows := pd.len df;
         null_counts := counts;
         duplicate_rows := 0;
         validation_passed := false;
         error := Some (str_exn e) |}
  end.
End Frame.

(** One iteration of the loop of [validate_constraints]: [Ok false] is the
    early [return False], [Ok true] lets the loop go on.  The table holds
    integers.  Under a label that several columns carry, [df[column]] is
    a table, the count or the comparison a Series, and [if] refuses its
    truth value. *)
Definition check_constraint (df : pd.DataFrame Z)
    (constraint : gmap string pyval) : outcome bool :=
  let constraint_type := dict_get constraint "type" in
  let column := dict_get constraint "column" in
  let value := dict_get constraint "value" in
  if eq_str constraint_type "not_null" then
    match pd.getitem df column with
    | Ok (pd.One_series s) => Ok (negb (0 <? pd.isna_sum s))
    | Ok (pd.Sub_frame _) => Raise AmbiguousTruth
    | Raise e => Raise e
    end
  else if eq_str constraint_type "min_value" then
    match pd.getitem df column with
    | Ok (pd.One_series s) =>
        match match pd.series_min s with
              | Some min_val => np_lt min_val value
              | None => lt_nan value
              end with
        | Ok below => Ok (negb below)
        | Raise e => Raise e
        end
    | Ok (pd.Sub_frame _) =>
        match lt_nan value with
        | Ok _ => Raise AmbiguousTruth
        | Raise e => Raise e
        end
    | Raise e => Raise e
    end
  else if eq_str constraint_type "max_value" then
    match pd.getitem df column with
    | Ok (pd.One_series s) =>
        match match pd.series_max s with
              | Some max_val => np_gt max_val value
              | None => gt_nan value
              end with
        | Ok above => Ok (negb above)
        | Raise e => Raise e
        end
    | Ok (pd.Sub_frame _) =>
        match gt_nan value with
        | Ok _ => Raise AmbiguousTruth
        | Raise e => Raise e
        end
    | Raise e => Raise e
    end
  else Ok true.

(** The [try] block of [validate_constraints]. *)
Fixpoint validate_constraints_try (df : pd.DataFrame Z)
    (constraints : list (gmap string pyval)) : outcome bool :=
  match constraints with
  | [] => Ok true
  | constraint :: rest =>
      match check_constraint df constraint with
      | Ok true => validate_constraints_try df rest
      | Ok false => Ok false
      | Raise e => Raise e
      end
  end.

(** [ValidationEngine.validate_constraints] *)
Definition validate_constraints (self : t) (df : pd.DataFrame Z)
    (constraints : list (gmap string pyval)) : bool :=
  match validate_constraints_try df constraints with
  | Ok b => b
  | Raise _ => false
  end.

(** The constraint types the checker acts on. *)
Definition recognized (constraint : gmap string pyval) : bool :=
  let constraint_type := dict_get constraint "type" in
  eq_str constraint_type "not_null" || eq_str constraint_type "min_value"
    || eq_str constraint_type "max_value".

End ValidationEngine.

(** ** [engine/contract_parser.py]: the contract object *)

Module DataContract.

Record t : Type := {
  name : pyval;
  version : pyval;
  source_s3_path : pyval;
  target_s3_path : pyval;
  schema : gmap string pyval;
  sla : gmap string pyval;
  transformations : list pyval
}.

Definition get_schema (c : t) : gmap string pyval := schema c.
Definition get_sla (c : t) : gmap string pyval := sla c.
Definition get_transformations (c : t) : list pyval := transformations c.

End DataContract.

(** ** [engine/pipeline_generator.py] *)

Module PipelineGenerator.

(** The [details] entry of a step: a sentence, the quality profile, or the
    SLA result. *)
Inductive details : Type :=
  | Text (s : string)
  | Quality (q : ValidationEngine.quality_results)
  | Sla (r : SLAEnforcer.sla_result).

Record step : Type := {
  name : string;
  status : string;
  step_details : details
}.

(** The report dictionary: each of its three entries is present or not. *)
Record report : Type := {
  input_rows : option Z;
  steps : option (list step);
  success : option bool
}.

(** The empty dictionary [{}]. *)
Definition empty_report : report :=
  {| input_rows := None; steps := None; success := None |}.

(** The instance. *)
Record t : Type := {
  contract : DataContract.t;
  validation_engine : ValidationEngine.t;
  sla_enforcer : SLAEnforcer.t;
  pipeline_results : report
}.

(** [PipelineGenerator.__init__] *)
Definition init (c : DataContract.t) : t :=
  {| contract := c;
     validation_engine := ValidationEngine.init (DataContract.get_schema c);
     sla_enforcer := SLAEnforcer.init (DataContract.get_sla c);
     pipeline_results := empty_report |}.

(** The collaborators [generate] can call. *)
Inductive callee : Type :=
  | Validate_schema
  | Validate_data_quality
  | Enforce_sla.

(** What a call of [generate] can reach: the instance, and, as
    instrumentation, the collaborator calls made so far, in order. *)
Record frame : Type := { self : t; invoked : list callee }.

Definition with_results (r : report) (f : frame) : frame :=
  {| self := {| contract := contract (self f);
                validation_engine := validation_engine (self f);
                sla_enforcer := sla_enforcer (self f);
                pipeline_results := r |};
     invoked := invoked f |}.

Definition with_enforcer (e : SLAEnforcer.t) (f : frame) : frame :=
  {| self := {| contract := contract (self f);
                validation_engine := validation_engine (self f);
                sla_enforcer := e;
                pipeline_results := pipeline_results (self f) |};
     invoked := invoked f |}.

Definition note (c : callee) : M frame unit :=
  write (λ f, {| self := self f; invoked := invoked f ++ [c] |}).

(** [self.pipeline_results["steps"].append(s)]: reading a missing entry
    raises [KeyError]; otherwise the list under it grows at its end. *)
Definition append_step (s : step) : M frame unit :=
  do f <- read;
  match steps (pipeline_results (self f)) with
  | Some _ =>
      write (λ f, let r := pipeline_results (self f) in
                  with_results {| input_rows := input_rows r;
                                  steps := (λ l, l ++ [s]) <$> steps r;
                                  success := success r |} f)
  | None => raise (KeyError (PStr "steps"))
  end.

(** [self.pipeline_results["success"] = b] *)
Definition set_success (b : bool) : M frame unit :=
  write (λ f, let r := pipeline_results (self f) in
              with_results {| input_rows := input_rows r;
                              steps := steps r;
                              success := Some b |} f).

Section Generate.
Context `{PyText} {V : Type} `{EqDecision V}.

Definition call_validate_schema (df : pd.DataFrame V) : M frame bool :=
  do f <- read;
  perform note Validate_schema;
  ret (ValidationEngine.validate_schema (validation_engine (self f)) df).

Definition call_validate_data_quality (df : pd.DataFrame V)
    : M frame ValidationEngine.quality_results :=
  do f <- read;
  perform note Validate_data_quality;
  ret (ValidationEngine.validate_data_quality (validation_engine (self f)) df).

Definition call_enforce_sla (now : string) (df : pd.DataFrame V)
    : M frame SLAEnforcer.sla_result :=
  do f <- read;
  perform note Enforce_sla;
  let r := SLAEnforcer.enforce_sla (sla_enforcer (self f)) now df in
  perform write (with_enforcer r.2);
  lift r.1.

Definition passed_or_failed (b : bool) : string :=
  if b then "passed" else "failed".

(** The statements of [generate] after the report has been created. *)
Definition generate_steps (now : string) (df : pd.DataFrame V)
    : M frame report :=
  do schema_valid <- call_validate_schema df;
  perform append_step
    {| name := "schema_validation";
       status := passed_or_failed schema_valid;
       step_details :=
         Text ("Schema validation " +:+ passed_or_failed schema_valid) |};
  if negb schema_valid then
    perform set_success false;
    do f <- read;
    ret (pipeline_results (self f))
  else
    do quality_results <- call_validate_data_quality df;
    perform append_step
      {| name := "data_quality";
         status := "completed";
         step_details := Quality quality_results |};
    do sla_results <- call_enforce_sla now df;
    perform append_step
      {| name := "sla_enforcement";
         status := passed_or_failed (SLAEnforcer.sla_passed sla_results);
         step_details := Sla sla_results |};
    perform (if negb (SLAEnforcer.sla_passed sla_results)
             then set_success false else ret tt);
    do f <- read;
    ret (pipeline_results (self f)).

(** The whole body: [self.pipeline_results = {...}], then the steps. *)
Definition generate_body (now : string) (df : pd.DataFrame V)
    : M frame report :=
  perform write (with_results {| input_rows := Some (pd.len df);
                                 steps := Some [];
                                 success := Some true |});
  generate_steps now df.

(** The run of [generate] from an instance [g]. *)
Definition generate_run (g : t) (now : string) (df : pd.DataFrame V)
    : outcome report * trace frame :=
  generate_body now df (start {| self := g; invoked := [] |}).

(** [PipelineGenerator.generate]: what the call returns (or raises) and
    the instance afterwards. *)
Definition generate (g : t) (now : string) (df : pd.DataFrame V)
    : outcome report * t :=
  let r := generate_run g now df in (r.1, self (cur r.2)).
End Generate.

(** [PipelineGenerator.get_results] *)
Definition get_results (g : t) : report := pipeline_results g.

End PipelineGenerator.

(** ** [runtime/lambda_handler.py] and [load_contract] *)

(** The files, the object store, pandas' CSV reader and writer and the
    YAML parser are outside the repository: they are operations of an
    interface ([Services]) over a world the handler runs in.  Log records
    are not part of the model. *)
Module lambda_handler.

(** An exception as this layer sees it: its class, and the text [str(e)]. *)
Inductive error : Type :=
  | File_not_found (text : string)   (* FileNotFoundError *)
  | Value_error (text : string)      (* ValueError *)
  | Attribute_error (text : string)  (* AttributeError *)
  | Other_error (text : string).     (* any other subclass of Exception *)

Definition str_error (e : error) : string :=
  match e with
  | File_not_found text | Value_error text | Attribute_error text
  | Other_error text => text
  end.

Inductive result (A : Type) : Type :=
  | Done (a : A)
  | Failed (e : error).
Arguments Done {A} a.
Arguments Failed {A} e.

(** [not v] is the negation of this. *)
Definition truthy (v : pyval) : bool :=
  match v with
  | PNone => false
  | PBool b => b
  | PInt z => negb (z =? 0)
  | PFloat q => negb (Qeq_bool q 0)
  | PStr s => negb (String.eqb s "")
  | PDict d => match map_to_list d with [] => false | _ => true end
  end.

(** [type(v).__name__] *)
Definition type_name (v : pyval) : string :=
  match v with
  | PNone => "NoneType"
  | PBool _ => "bool"
  | PInt _ => "int"
  | PFloat _ => "float"
  | PStr _ => "str"
  | PDict _ => "dict"
  end.

(** The string that a value is; used where a string method has already
    succeeded on the value. *)
Definition as_str (v : pyval) : string :=
  match v with
  | PStr s => s
  | _ => EmptyString
  end.

(** [path.startswith("s3://")]: only a string has the method. *)
Definition _is_s3_path (path : pyval) : result bool :=
  match path with
  | PStr s => Done (String.prefix "s3://" s)
  | _ => Failed (Attribute_error
                   ("'" +:+ type_name path +:+
                    "' object has no attribute 'startswith'"))
  end.

(** [s.replace(old, "")] for a non-empty [old]: every occurrence found
    when scanning from the left is dropped, the scan going on behind it.
    [skip] counts the characters of an occurrence still to drop. *)
Fixpoint remove_from (old : string) (skip : nat) (s : string) : string :=
  match s with
  | EmptyString => EmptyString
  | String c rest =>
      match skip with
      | S k => remove_from old k rest
      | O =>
          if String.prefix old s
          then remove_from old (String.length old - 1) rest
          else String c (remove_from old 0 rest)
      end
  end.

(** [s.split("/", 1)]: [None] stands for the one-element list [[s]],
    [Some (a, b)] for the list [[a, b]] cut at the first "/". *)
Fixpoint split_once (s : string) : option (string * string) :=
  match s with
  | EmptyString => None
  | String c rest =>
      if String.eqb (String c EmptyString) "/" then Some (EmptyString, rest)
      else match split_once rest with
           | Some (a, b) => Some (String c a, b)
           | None => None
           end
  end.

(** [bucket, key = s3_path.replace("s3://", "").split("/", 1)]: unpacking
    a list of one element raises [ValueError]. *)
Definition bucket_and_key (s3_path : string) : result (string * string) :=
  match split_once (remove_from "s3://" 0 s3_path) with
  | Some (bucket, key) => Done (bucket, key)
  | None => Failed (Value_error "not enough values to unpack (expected 2, got 1)")
  end.

(** The dictionary that [json.dumps] turns into the body of a response. *)
Inductive payload : Type :=
  | Validation_failed (results : PipelineGenerator.report)
  | Completed (contract : pyval) (input_rows output_rows : Z)
      (pipeline_results : PipelineGenerator.report)
  | Execution_failed (message : string).

Record response : Type := { statusCode : Z; body : string }.

(** What lies outside the repository.  [W] is the state of the files and
    of the object store, [B] the body of a stored object.  A read is a
    function of that state and leaves it as it is; a write returns the
    state it leaves, also when it fails. *)
Class Services (V W B : Type) := {
  (* s3_client.get_object(Bucket=bucket, Key=key)["Body"] *)
  get_object : string → string → W → result B;
  (* body.read().decode("utf-8") *)
  read_decode : B → result string;
  (* open(path, "r").read() *)
  open_read : string → W → result string;
  (* DataContract(yaml.safe_load(content)) *)
  parse_contract : string → result DataContract.t;
  (* pd.read_csv(path) *)
  read_csv_path : string → W → result (pd.DataFrame V);
  (* pd.read_csv(body) *)
  read_csv_body : B → result (pd.DataFrame V);
  (* df.to_csv(buffer, index=False); buffer.getvalue() *)
  to_csv_text : pd.DataFrame V → string;
  (* s3_client.put_object(Bucket=bucket, Key=key, Body=text) *)
  put_object : string → string → string → W → result unit * W;
  (* os.path.dirname(path) *)
  dirname : string → string;
  (* os.path.exists(directory) *)
  path_exists : string → W → bool;
  (* os.makedirs(directory) *)
  makedirs : string → W → result unit * W;
  (* df.to_csv(path, index=False) *)
  to_csv_path : pd.DataFrame V → string → W → result unit * W;
  (* json.dumps(payload), with or without default=str: the values of a
     report are strings, booleans, integers and floats, which it takes *)
  json_dumps : payload → string
}.

Section Handler.
Context `{PyText} {V W B : Type} `{EqDecision V} `{Services V W B}.

(** [_read_csv_from_s3] *)
Definition _read_csv_from_s3 (s3_path : string) (w : W)
    : result (pd.DataFrame V) :=
  match bucket_and_key s3_path with
  | Done (bucket, key) =>
      match get_object bucket key w with
      | Done obj => read_csv_body obj
      | Failed e => Failed e
      end
  | Failed e => Failed e
  end.

(** [_read_csv] *)
Definition _read_csv (path : pyval) (w : W) : result (pd.DataFrame V) :=
  match _is_s3_path path with
  | Done true => _read_csv_from_s3 (as_str path) w
  | Done false => read_csv_path (as_str path) w
  | Failed e => Failed e
  end.

(** [_write_csv_to_s3] *)
Definition _write_csv_to_s3 (df : pd.DataFrame V) (s3_path : string) (w : W)
    : result unit * W :=
  match bucket_and_key s3_path with
  | Done (bucket, key) => put_object bucket key (to_csv_text df) w
  | Failed e => (Failed e, w)
  end.

(** [_write_csv] *)
Definition _write_csv (df : pd.DataFrame V) (path : pyval) (w : W)
    : result unit * W :=
  match _is_s3_path path with
  | Done true => _write_csv_to_s3 df (as_str path) w
  | Done false =>
      let directory := dirname (as_str path) in
      if negb (String.eqb directory "") && negb (path_exists directory w)
      then match makedirs directory w with
           | (Done _, w') => to_csv_path df (as_str path) w'
           | (Failed e, w') => (Failed e, w')
           end
      else to_csv_path df (as_str path) w
  | Failed e => (Failed e, w)
  end.

(** The [try] block of [load_contract]. *)
Definition load_contract_try (contract_path : pyval) (w : W)
    : result DataContract.t :=
  match _is_s3_path contract_path with
  | Done true =>
      match bucket_and_key (as_str contract_path) with
      | Done (bucket, key) =>
          match get_object bucket key w with
          | Done obj =>
              match read_decode obj with
              | Done content => parse_contract content
              | Failed e => Failed e
              end
          | Failed e => Failed e
          end
      | Failed e => Failed e
      end
  | Done false =>
      match open_read (as_str contract_path) w with
      | Done content => parse_contract content
      | Failed e => Failed e
      end
  | Failed e => Failed e
  end.

(** [engine.contract_parser.load_contract]: a missing file is reported as
    such, every other failure as a [ValueError]. *)
Definition load_contract (contract_path : pyval) (w : W)
    : result DataContract.t :=
  match load_contract_try contract_path w with
  | Done contract => Done contract
  | Failed (File_not_found _) =>
      Failed (File_not_found
                ("Contract file not found: " +:+ py_str contract_path))
  | Failed e =>
      Failed (Value_error ("Failed to load contract: " +:+ str_error e))
  end.

(** The [try] block of [handler]. *)
Definition handler_try (event : gmap string pyval) (now : string) (w : W)
    : result response * W :=
  let contract_path := dict_get event "contract_path" in
  if negb (truthy contract_path) then
    (Failed (Value_error "Missing required parameter: contract_path"), w)
  else
    match load_contract contract_path w with
    | Failed e => (Failed e, w)
    | Done contract =>
        let source_path :=
          default (DataContract.source_s3_path contract)
            (event !! "source_path") in
        let target_path :=
          default (DataContract.target_s3_path contract)
            (event !! "target_path") in
        if negb (truthy source_path) || negb (truthy target_path) then
          (Failed (Value_error
             "Source and target paths must be specified in contract or event"),
           w)
        else
          match _read_csv source_path w with
          | Failed e => (Failed e, w)
          | Done df =>
              let input_row_count := pd.len df in
              let pipeline := PipelineGenerator.init contract in
              match (PipelineGenerator.generate pipeline now df).1 with
              | Raise e => (Failed (Other_error (str_exn e)), w)
              | Ok pipeline_results =>
                  if negb (default true
                             (PipelineGenerator.success pipeline_results))
                  then
                    (Done {| statusCode := 400;
                             body := json_dumps
                                       (Validation_failed pipeline_results) |},
                     w)
                  else
                    match _write_csv df target_path w with
                    | (Failed e, w') => (Failed e, w')
                    | (Done _, w') =>
                        (Done {| statusCode := 200;
                                 body := json_dumps
                                           (Completed
                                              (DataContract.name contract)
                                              input_row_count (pd.len df)
                                              pipeline_results) |},
                         w')
                    end
              end
          end
    end.

(** [handler]: the response, and the world it leaves.  [now] is the
    clock reading that the SLA step takes. *)
Definition handler (event : gmap string pyval) (now : string) (w : W)
    : response * W :=
  match handler_try event now w with
  | (Done r, w') => (r, w')
  | (Failed e, w') =>
      ({| statusCode := 500;
          body := json_dumps
                    (Execution_failed
                       ("Data contract execution failed: " +:+ str_error e)) |},
       w')
  end.
End Handler.

End lambda_handler.

(** ** Vocabulary of the statements *)

(** Runs that only make steps of a given kind. *)
Module Invariants.

Section Defs.
Context {St : Type} (R : St → St → Prop).

(** [extends t t']: the trace [t'] arises from [t] by assignments, each
    taking the state to an [R]-related one. *)
Inductive extends : trace St → trace St → Prop :=
  | extends_refl t : extends t t
  | extends_write t t' s :
      extends t t' → R (cur t') s →
      extends t {| cur := s; past := cur t' :: past t' |}.

(** A computation all of whose assignments are [R]-steps. *)
Definition respects {A} (m : M St A) : Prop := ∀ t, extends t (m t).2.

(** Every element of the list is [R]-related to every later one. *)
Definition ordered (l : list St) : Prop :=
  ∀ i j x y, (i ≤ j)%nat → l !! i = Some x → l !! j = Some y → R x y.
End Defs.

(** A flag that, once down, stays down: no [false] is followed by anything
    but [false]. *)
Definition stays_false {B : Type} (down : B) (flags : list B) : Prop :=
  ∀ i j b, (i ≤ j)%nat → flags !! i = Some down → flags !! j = Some b → b = down.

End Invariants.
Export Invariants.

(** What one assignment of [enforce_sla] may do to its frame: the instance
    and the timestamp stay, a failed verdict stays failed, violations are
    only added at the end. *)
Definition sla_step (f f' : SLAEnforcer.frame) : Prop :=
  SLAEnforcer.self f' = SLAEnforcer.self f
  ∧ SLAEnforcer.timestamp (SLAEnforcer.results f')
    = SLAEnforcer.timestamp (SLAEnforcer.results f)
  ∧ (SLAEnforcer.sla_passed (SLAEnforcer.results f) = false →
     SLAEnforcer.sla_passed (SLAEnforcer.results f') = false)
  ∧ SLAEnforcer.violations (SLAEnforcer.results f)
      `prefix_of` SLAEnforcer.violations (SLAEnforcer.results f').


(** A well-formed table: the labels are distinct and every column has as
    many entries as the index. *)
Definition well_formed {V : Type} (df : pd.DataFrame V) : Prop :=
  NoDup (pd.columns df)
  ∧ ∀ col s, (col, s) ∈ pd.data df → length s = pd.index_len df.

(** [sub in s]: the text [sub] occurs somewhere in [s]. *)
Fixpoint contains (sub s : string) : bool :=
  String.prefix sub s
  || match s with
     | EmptyString => false
     | String _ rest => contains sub rest
     end.

(** What one assignment of [generate] may do once the report exists: a
    failed report stays failed. *)
Definition report_step (f f' : PipelineGenerator.frame) : Prop :=
  PipelineGenerator.success
    (PipelineGenerator.pipeline_results (PipelineGenerator.self f)) = Some false →
  PipelineGenerator.success
    (PipelineGenerator.pipeline_results (PipelineGenerator.self f')) = Some false.

(** The SLA rules read one at a time, each judged on its own, in the words
    of section 4.4 of the specification. *)
Module RuleByRule.
Import SLAEnforcer.

Section Rules.
Context `{PyText} {V : Type}.



Definition total_cells (df : pd.DataFrame V) : Z :=
  pd.len df * Z.of_nat (length (pd.columns df)).

(** [(totalCells - nullCells) / totalCells], and [1.0] without cells. *)
Definition completeness_of (df : pd.DataFrame V) : Q :=
  if total_cells df =? 0 then 1%Q
  else (inject_Z (total_cells df - pd.isna_sum_sum df)
        / inject_Z (total_cells df))%Q.

Definition min_rows_violations (rules : gmap string pyval)
    (df : pd.DataFrame V) : list string :=
  match rules !! "min_rows" with
  | Some m =>
      match as_number m with
      | Some q =>
          if Qltb (inject_Z (pd.len df)) q
          then [min_rows_message (pd.len df) m] else []
      | None => []
      end
  | None => []
  end.

Definition max_rows_violations (rules : gmap string pyval)
    (df : pd.DataFrame V) : list string :=
  match rules !! "max_rows" with
  | Some m =>
      match as_number m with
      | Some q =>
          if Qltb q (inject_Z (pd.len df))
          then [max_rows_message (pd.len df) m] else []
      | None => []
      end
  | None => []
  end.

Definition completeness_violations (rules : gmap string pyval)
    (df : pd.DataFrame V) : list string :=
  match rules !! "completeness_threshold" with
  | Some c =>
      match as_number c with
      | Some q =>
          if Qltb (completeness_of df) q
          then [completeness_message (format_pct (completeness_of df))
                  (format_pct q)]
          else []
      | None => []
      end
  | None => []
  end.

Definition recorded_metrics (rules : gmap string pyval)
    (df : pd.DataFrame V) : gmap string pyval :=
  let with_count :=
    match rules !! "min_rows" with
    | Some _ => <["row_count" := PInt (pd.len df)]> ∅
    | None => ∅
    end in
  match rules !! "completeness_threshold" with
  | Some _ => <["completeness" := PFloat (completeness_of df)]> with_count
  | None => with_count
  end.

Definition result (rules : gmap string pyval) (now : string)
    (df : pd.DataFrame V) : sla_result :=
  let found := min_rows_violations rules df ++ max_rows_violations rules df
                 ++ completeness_violations rules df in
  {| timestamp := now;
     sla_passed := match found with [] => true | _ => false end;
     violations := found;
     metrics := recorded_metrics rules df |}.
End Rules.

End RuleByRule.

(** ** Closed inputs for the examples *)

Module Samples.

(** A rendering for the closed examples: a rational is shown as the exact
    fraction it is. *)
Definition show_Q (q : Q) : string :=
  pretty (Qnum q) +:+ "/" +:+ pretty (Z.pos (Qden q)).

#[export] Instance exact_text : PyText :=
  {| str_float := show_Q;
     str_dict := λ _, "{...}";
     format_pct := λ q, show_Q (q * 100) +:+ "%";
     str_exn := λ e,
       match e with
       | TypeError op _ => "'" +:+ op +:+ "' not supported"
       | KeyError _ => "key"
       | AttributeError _ attr => "no attribute '" +:+ attr +:+ "'"
       | ValueError _ _ => "unknown format code"
       | ZeroDivisionError => "division by zero"
       | AmbiguousTruth => "The truth value of a Series is ambiguous"
       | NotAScalar => "cannot convert the series to <class 'int'>"
       end |}.

(** Two rows, no missing value. *)
Definition two_rows : pd.DataFrame Z :=
  {| pd.index_len := 2;
     pd.data := [("id", [Some 1; Some 2]); ("age", [Some 18; Some 25])] |}.

(** Three rows and two of the six cells missing. *)
Definition sparse : pd.DataFrame Z :=
  {| pd.index_len := 3;
     pd.data := [("id", [Some 1; Some 2; None]); ("age", [None; Some 30; Some 25])] |}.


(** An index of three rows without any column. *)
Definition no_columns : pd.DataFrame Z :=
  {| pd.index_len := 3; pd.data := [] |}.

(** The tables of [tests/test_sla_enforcer.py] and
    [tests/test_validation_engine.py]: cells are integers or text. *)
Definition ids_and_names : pd.DataFrame (Z + string) :=
  {| pd.index_len := 3;
     pd.data := [("id", [Some (inl 1); Some (inl 2); None]);
                 ("name", [Some (inr "John"); Some (inr "Jane"); Some (inr "Bob")])] |}.

Definition mostly_missing : pd.DataFrame (Z + string) :=
  {| pd.index_len := 3;
     pd.data := [("id", [Some (inl 1); Some (inl 2); None]);
                 ("name", [None; None; Some (inr "Bob")])] |}.

Definition one_duplicate : pd.DataFrame (Z + string) :=
  {| pd.index_len := 3;
     pd.data := [("id", [Some (inl 1); Some (inl 2); Some (inl 1)]);
                 ("name", [Some (inr "John"); Some (inr "Jane"); Some (inr "John")])] |}.

Definition ages : pd.DataFrame Z :=
  {| pd.index_len := 3; pd.data := [("age", [Some 18; Some 25; Some 30])] |}.

(** Two columns under one label. *)
Definition repeated_label : pd.DataFrame Z :=
  {| pd.index_len := 2;
     pd.data := [("age", [Some 18; Some 25]); ("age", [Some 18; Some 30])] |}.


Definition contract_of (columns : list string) (sla : gmap string pyval)
    : DataContract.t :=
  {| DataContract.name := PStr "Test Contract";
     DataContract.version := PStr "1.0";
     DataContract.source_s3_path := PStr "s3://bucket/input.csv";
     DataContract.target_s3_path := PStr "s3://bucket/output.csv";
     DataContract.schema :=
       {[ "columns" := PDict (list_to_map ((λ c, (c, PStr "integer")) <$> columns)) ]};
     DataContract.sla := sla;
     DataContract.transformations := [] |}.

Definition constraint_on (type column : string) (value : pyval)
    : gmap string pyval :=
  <["type" := PStr type]> (<["column" := PStr column]> {[ "value" := value ]}).

End Samples.

(** A small world for the closed examples of the handler: the files are
    a list of paths with their text, the object store is empty, every
    CSV text reads as the table [two_rows], and the contract texts that
    parse are "contract" and "strict". *)
Module Toy.
Import lambda_handler.

Definition files : Type := list (string * string).

Fixpoint file_text (path : string) (w : files) : option string :=
  match w with
  | [] => None
  | (p, text) :: rest => if String.eqb p path then Some text else file_text path rest
  end.

Definition toy_contract : DataContract.t :=
  {| DataContract.name := PStr "Toy";
     DataContract.version := PStr "1.0";
     DataContract.source_s3_path := PStr "in.csv";
     DataContract.target_s3_path := PStr "out.csv";
     DataContract.schema := {[ "columns" := PDict {[ "id" := PStr "integer" ]} ]};
     DataContract.sla := {[ "min_rows" := PInt 1 ]};
     DataContract.transformations := [] |}.

(** The same contract asking for a hundred rows. *)
Definition strict_contract : DataContract.t :=
  {| DataContract.name := PStr "Strict";
     DataContract.version := PStr "1.0";
     DataContract.source_s3_path := PStr "in.csv";
     DataContract.target_s3_path := PStr "out.csv";
     DataContract.schema := {[ "columns" := PDict {[ "id" := PStr "integer" ]} ]};
     DataContract.sla := {[ "min_rows" := PInt 100 ]};
     DataContract.transformations := [] |}.

#[export] Instance toy_services : Services Z files string :=
  {| get_object := λ _ _ _, Failed (Other_error "NoSuchBucket");
     read_decode := λ b, Done b;
     open_read := λ path w,
       match file_text path w with
       | Some text => Done text
       | None => Failed (File_not_found "No such file or directory")
       end;
     parse_contract := λ content,
       if String.eqb content "contract" then Done toy_contract
       else if String.eqb content "strict" then Done strict_contract
       else Failed (Other_error "could not parse");
     read_csv_path := λ path w,
       match file_text path w with
       | Some _ => Done Samples.two_rows
       | None => Failed (File_not_found "No such file or directory")
       end;
     read_csv_body := λ _, Done Samples.two_rows;
     to_csv_text := λ _, "id,age";
     put_object := λ bucket key text w, (Done tt, (bucket +:+ "/" +:+ key, text) :: w);
     dirname := λ _, "";
     path_exists := λ _ _, true;
     makedirs := λ _ w, (Done tt, w);
     to_csv_path := λ _ path w, (Done tt, (path, "id,age") :: w);
     json_dumps := λ p,
       match p with
       | Validation_failed _ => "Pipeline validation failed"
       | Completed _ _ _ _ => "Data contract execution completed successfully"
       | Execution_failed message => message
       end |}.

Definition toy_files : files :=
  [("contract.yaml", "contract"); ("strict.yaml", "strict");
   ("in.csv", "id,age")].

End Toy.

(** * Properties *)

Import SLAEnforcer RuleByRule.

Create HintDb sla.

(** ** Runs and their histories *)

Section MachineFacts.
Context {St : Type} (R : St → St → Prop).

Lemma extends_trans (t1 t2 t3 : trace St) :
  extends R t1 t2 → extends R t2 t3 → extends R t1 t3.
Proof.
  intros H12 H23. induction H23 as [|t2 t3 s _ IH Hs]; [done|].
  by apply extends_write; [apply IH|].
Qed.

Lemma respects_ret {A} (a : A) : respects R (ret a).
Proof. intros t. apply extends_refl. Qed.

Lemma respects_raise {A} (e : exn) : respects R (@raise St A e).
Proof. intros t. apply extends_refl. Qed.

Lemma respects_lift {A} (o : outcome A) : respects R (lift o).
Proof. intros t. apply extends_refl. Qed.

Lemma respects_read : respects R (@read St).
Proof. intros t. apply extends_refl. Qed.

Lemma respects_write (f : St → St) :
  (∀ s, R s (f s)) → respects R (write f).
Proof.
  intros Hf t. cbn. apply extends_write; [apply extends_refl | apply Hf].
Qed.

Lemma respects_bind {A B} (m : M St A) (k : A → M St B) :
  respects R m → (∀ a, respects R (k a)) → respects R (bind m k).
Proof.
  intros Hm Hk t. unfold bind. specialize (Hm t).
  destruct (m t) as [[a|e] t']; cbn in *; [|done].
  eapply extends_trans; [exact Hm | apply Hk].
Qed.

Lemma respects_try_except {A} (body : M St A) (handler : exn → M St A) :
  respects R body → (∀ e, respects R (handler e)) →
  respects R (try_except body handler).
Proof.
  intros Hb Hh t. unfold try_except. specialize (Hb t).
  destruct (body t) as [[a|e] t']; cbn in *; [done|].
  eapply extends_trans; [exact Hb | apply Hh].
Qed.

Lemma states_write (t : trace St) (s : St) :
  states {| cur := s; past := cur t :: past t |} = states t ++ [s].
Proof. reflexivity. Qed.

Lemma states_last (t : trace St) : last (states t) = Some (cur t).
Proof. unfold states. cbn. by rewrite last_snoc. Qed.

Context `{!Reflexive R, !Transitive R}.

Lemma extends_cur (t t' : trace St) : extends R t t' → R (cur t) (cur t').
Proof.
  induction 1 as [|t t' s _ IH Hs]; cbn; [done|]. by etrans.
Qed.

Lemma ordered_snoc (l : list St) (s : St) :
  ordered R l → (∀ x, x ∈ l → R x s) → ordered R (l ++ [s]).
Proof.
  intros Hl Hs i j x y Hij Hi Hj.
  destruct (decide (j < length l)%nat) as [Hlt|Hge].
  - rewrite lookup_app_l in Hi by lia. rewrite lookup_app_l in Hj by lia. eauto.
  - rewrite lookup_app_r in Hj by lia.
    destruct (j - length l)%nat as [|n] eqn:E; cbn in Hj; [|done].
    simplify_eq.
    destruct (decide (i < length l)%nat).
    + rewrite lookup_app_l in Hi by lia.
      apply Hs. by eapply list_elem_of_lookup_2.
    + rewrite lookup_app_r in Hi by lia.
      destruct (i - length l)%nat eqn:E'; cbn in Hi; [|done]. by simplify_eq.
Qed.

(** The states a run of [R]-steps adds are ordered, counting from the
    state the run started in. *)
Lemma extends_states (t t' : trace St) :
  extends R t t' →
  ∃ news, states t' = states t ++ news ∧ ordered R (cur t :: news)
          ∧ last (cur t :: news) = Some (cur t').
Proof.
  induction 1 as [t|t t' s _ (news & Hst & Hord & Hlast) Hs].
  - exists []. rewrite app_nil_r. split; [done|]. split; [|done].
    intros i j x y _ Hi Hj.
    destruct i; [|done]. destruct j; [|done]. cbn in *. by simplify_eq.
  - exists (news ++ [s]). rewrite states_write, Hst, app_assoc.
    split; [done|]. split.
    + change (cur t :: news ++ [s]) with ((cur t :: news) ++ [s]).
      apply ordered_snoc; [done|].
      intros x Hx. apply list_elem_of_lookup in Hx as [i Hi].
      trans (cur t'); [|done].
      rewrite last_lookup in Hlast.
      eapply (Hord i _ x (cur t')); [|done|exact Hlast].
      apply lookup_lt_Some in Hi. cbn in *. lia.
    + change (cur t :: news ++ [s]) with ((cur t :: news) ++ [s]).
      by rewrite last_snoc.
Qed.

(** A flag that [R] keeps down stays down along an ordered list. *)
Lemma ordered_stays_false {B} (flag : St → B) (down : B) (l : list St) :
  (∀ x y, R x y → flag x = down → flag y = down) →
  ordered R l → stays_false down (flag <$> l).
Proof.
  intros Hkeep Hord i j b Hij Hi Hj.
  rewrite list_lookup_fmap in Hi, Hj.
  destruct (l !! i) as [x|] eqn:Ex; [|done].
  destruct (l !! j) as [y|] eqn:Ey; [|done].
  cbn in *. simplify_eq. eapply Hkeep; [|done]. eauto.
Qed.
End MachineFacts.

Ltac respects_tac :=
  repeat first
    [ apply respects_ret | apply respects_lift | apply respects_read
    | apply respects_raise
    | apply respects_bind; [|intros ?]
    | apply respects_try_except; [|intros ?]
    | match goal with
      | |- respects _ (match ?x with _ => _ end) => destruct x
      end ].

(** ** Numbers and messages *)


Lemma Qltb_ge (x y : Q) : Qltb x y = false ↔ (y <= x)%Q.
Proof.
  unfold Qltb. rewrite negb_false_iff. apply Qle_bool_iff.
Qed.


Section Messages.
Context `{PyText}.





End Messages.

(** ** [enforce_sla]: its steps *)

#[local] Instance sla_step_refl : Reflexive sla_step.
Proof. intros f. by repeat split. Qed.

#[local] Instance sla_step_trans : Transitive sla_step.
Proof.
  intros f1 f2 f3 (?&?&?&?) (?&?&?&?).
  repeat split; [congruence..|auto|by etrans].
Qed.

Section SlaSteps.
Context `{PyText} {V : Type}.

Lemma set_metric_step k v : respects sla_step (set_metric k v).
Proof. apply respects_write. intros f. by repeat split. Qed.

Lemma set_sla_passed_step : respects sla_step (set_sla_passed false).
Proof. apply respects_write. intros f. by repeat split. Qed.

Lemma append_violation_step msg : respects sla_step (append_violation msg).
Proof.
  apply respects_write. intros f. repeat split; [done|]. cbn.
  by apply prefix_app_r.
Qed.

Hint Resolve set_metric_step set_sla_passed_step append_violation_step : sla.

Lemma check_min_rows_step n : respects sla_step (check_min_rows n).
Proof. unfold check_min_rows. respects_tac; auto with sla. Qed.

Lemma check_max_rows_step n : respects sla_step (check_max_rows n).
Proof. unfold check_max_rows. respects_tac; auto with sla. Qed.

Lemma check_completeness_step n (df : pd.DataFrame V) :
  respects sla_step (check_completeness n df).
Proof. unfold check_completeness. cbn zeta. respects_tac; auto with sla. Qed.

Lemma enforce_sla_steps (df : pd.DataFrame V) :
  respects sla_step (try_except (enforce_sla_try df) enforce_sla_except).
Proof.
  unfold enforce_sla_try, enforce_sla_except. cbn zeta.
  respects_tac;
    auto using check_min_rows_step, check_max_rows_step,
      check_completeness_step with sla.
Qed.

(** Whatever happens in the [try] block, the call returns [results]. *)
Lemma enforce_sla_run_returns (s : t) now (df : pd.DataFrame V) :
  (enforce_sla_run s now df).1
  = Ok (results (cur (enforce_sla_run s now df).2)).
Proof.
  unfold enforce_sla_run, try_except, enforce_sla_try, enforce_sla_except, bind.
  cbn zeta.
  destruct (check_min_rows _ _) as [[[]|e1] t1]; [|done].
  destruct (check_max_rows _ _) as [[[]|e2] t2]; [|done].
  by destruct (check_completeness _ _ _) as [[[]|e3] t3].
Qed.

Lemma enforce_sla_run_extends (s : t) now (df : pd.DataFrame V) :
  extends sla_step
    (start {| self := s;
              results := {| timestamp := now; sla_passed := true;
                            violations := []; metrics := ∅ |} |})
    (enforce_sla_run s now df).2.
Proof. apply enforce_sla_steps. Qed.

Lemma enforce_sla_self (s : t) now (df : pd.DataFrame V) :
  (enforce_sla s now df).2 = s.
Proof.
  pose proof (extends_cur sla_step _ _ (enforce_sla_run_extends s now df))
    as (Hs & _).
  exact Hs.
Qed.

Lemma enforce_sla_ok (s : t) now (df : pd.DataFrame V) :
  ∃ r, enforce_sla s now df = (Ok r, s).
Proof.
  exists (results (cur (enforce_sla_run s now df).2)).
  rewrite (surjective_pairing (enforce_sla s now df)).
  rewrite enforce_sla_self. unfold enforce_sla. cbn.
  by rewrite enforce_sla_run_returns.
Qed.
End SlaSteps.

(** ** [enforce_sla]: its result, case by case *)

Ltac unfold_sla :=
  unfold enforce_sla, enforce_sla_try_outcome, enforce_sla_run, try_except,
    enforce_sla_try, enforce_sla_except, check_min_rows, check_max_rows,
    check_completeness, set_metric, set_sla_passed, append_violation, bind,
    read, write, lift, ret, start, lt_number, gt_number, truediv,
    py_format_pct; cbn.

Section SlaResult.
Context `{PyText} {V : Type}.




End SlaResult.

(** ** [generate]: its two runs *)

Import PipelineGenerator.

#[local] Instance report_step_refl : Reflexive report_step.
Proof. intros f Hf. exact Hf. Qed.

#[local] Instance report_step_trans : Transitive report_step.
Proof. intros f1 f2 f3 H12 H23 Hf. apply H23, H12, Hf. Qed.

Section PipelineFacts.
Context `{PyText} {V : Type} `{EqDecision V}.

(** The run that stops after a failed schema check. *)
Lemma generate_run_invalid (g : PipelineGenerator.t) now (df : pd.DataFrame V) :
  ValidationEngine.validate_schema (validation_engine g) df = false →
  let r := {| input_rows := Some (pd.len df);
              steps := Some [{| name := "schema_validation";
                                status := "failed";
                                step_details := Text "Schema validation failed" |}];
              success := Some false |} in
  (generate_run g now df).1 = Ok r
  ∧ cur (generate_run g now df).2
    = {| PipelineGenerator.self :=
           {| contract := contract g;
              validation_engine := validation_engine g;
              sla_enforcer := sla_enforcer g;
              pipeline_results := r |};
         invoked := [Validate_schema] |}.
Proof.
  intros Hv. unfold generate_run, generate_body, generate_steps,
    call_validate_schema, append_step, set_success, note, bind, read, write,
    ret, start.
  cbn. rewrite Hv. cbn. done.
Qed.

(** The run through all three steps. *)
Lemma generate_run_valid (g : PipelineGenerator.t) now (df : pd.DataFrame V) sla :
  ValidationEngine.validate_schema (validation_engine g) df = true →
  (enforce_sla (sla_enforcer g) now df).1 = Ok sla →
  let r := {| input_rows := Some (pd.len df);
              steps :=
                Some [{| name := "schema_validation";
                         status := "passed";
                         step_details := Text "Schema validation passed" |};
                      {| name := "data_quality";
                         status := "completed";
                         step_details :=
                           Quality (ValidationEngine.validate_data_quality
                                      (validation_engine g) df) |};
                      {| name := "sla_enforcement";
                         status := passed_or_failed (sla_passed sla);
                         step_details := Sla sla |}];
              success := Some (sla_passed sla) |} in
  (generate_run g now df).1 = Ok r
  ∧ cur (generate_run g now df).2
    = {| PipelineGenerator.self :=
           {| contract := contract g;
              validation_engine := validation_engine g;
              sla_enforcer := sla_enforcer g;
              pipeline_results := r |};
         invoked := [Validate_schema; Validate_data_quality; Enforce_sla] |}.
Proof.
  intros Hv Hsla. destruct (enforce_sla_ok (sla_enforcer g) now df) as [r' Hr].
  rewrite Hr in Hsla. cbn in Hsla. injection Hsla as ->.
  unfold generate_run, generate_body, generate_steps,
    call_validate_schema, call_validate_data_quality, call_enforce_sla,
    append_step, set_success, note, bind, read, write, lift, ret, start.
  cbn -[enforce_sla ValidationEngine.validate_data_quality].
  rewrite Hv. cbn -[enforce_sla ValidationEngine.validate_data_quality].
  rewrite Hr. cbn -[ValidationEngine.validate_data_quality].
  by destruct (sla_passed sla).
Qed.

Lemma note_step c : respects report_step (note c).
Proof. apply respects_write. intros f Hf. exact Hf. Qed.

Lemma with_enforcer_step e : respects report_step (write (with_enforcer e)).
Proof. apply respects_write. intros f Hf. exact Hf. Qed.

Lemma append_step_step st : respects report_step (append_step st).
Proof.
  unfold append_step. respects_tac.
  apply respects_write. intros f Hf. exact Hf.
Qed.

Lemma set_success_step : respects report_step (set_success false).
Proof. apply respects_write. by intros f _. Qed.

Lemma generate_steps_step now (df : pd.DataFrame V) :
  respects report_step (generate_steps now df).
Proof.
  unfold generate_steps, call_validate_schema, call_validate_data_quality,
    call_enforce_sla. cbn zeta.
  repeat first
    [ apply note_step | apply append_step_step | apply set_success_step
    | apply with_enforcer_step | apply respects_ret | apply respects_lift
    | apply respects_read
    | apply respects_bind; [|intros ?]
    | match goal with
      | |- respects _ (if ?b then _ else _) => destruct b
      end ].
Qed.
End PipelineFacts.

(** ** [validate_constraints] *)

Section ConstraintFacts.
Import ValidationEngine.

Lemma series_min_cons (c : option Z) (s : pd.Series Z) :
  pd.series_min (c :: s)
  = match c, pd.series_min s with
    | Some x, Some y => Some (Z.min x y)
    | Some x, None => Some x
    | None, acc => acc
    end.
Proof. reflexivity. Qed.

Lemma series_max_cons (c : option Z) (s : pd.Series Z) :
  pd.series_max (c :: s)
  = match c, pd.series_max s with
    | Some x, Some y => Some (Z.max x y)
    | Some x, None => Some x
    | None, acc => acc
    end.
Proof. reflexivity. Qed.

Lemma series_min_bound (s : pd.Series Z) :
  match pd.series_min s with
  | Some y => Some y ∈ s ∧ ∀ x, Some x ∈ s → y ≤ x
  | None => ∀ x, Some x ∉ s
  end.
Proof.
  induction s as [|c s IH].
  - cbn. intros x Hx. by apply elem_of_nil in Hx.
  - rewrite series_min_cons.
    destruct c as [w|], (pd.series_min s) as [u|].
    + destruct IH as [Hu Hle]. split.
      * destruct (Z.min_spec w u) as [[_ ->]|[_ ->]]; [left|by right].
      * intros x [[= ->]|Hx]%elem_of_cons; [lia|].
        specialize (Hle x Hx). lia.
    + split; [left|].
      intros x [[= ->]|Hx]%elem_of_cons; [lia|]. by apply IH in Hx.
    + destruct IH as [Hu Hle]. split; [by right|].
      intros x [[=]|Hx]%elem_of_cons. by apply Hle.
    + intros x [[=]|Hx]%elem_of_cons. by apply IH in Hx.
Qed.

Lemma series_max_bound (s : pd.Series Z) :
  match pd.series_max s with
  | Some y => Some y ∈ s ∧ ∀ x, Some x ∈ s → x ≤ y
  | None => ∀ x, Some x ∉ s
  end.
Proof.
  induction s as [|c s IH].
  - cbn. intros x Hx. by apply elem_of_nil in Hx.
  - rewrite series_max_cons.
    destruct c as [w|], (pd.series_max s) as [u|].
    + destruct IH as [Hu Hle]. split.
      * destruct (Z.max_spec w u) as [[_ ->]|[_ ->]]; [by right|left].
      * intros x [[= ->]|Hx]%elem_of_cons; [lia|].
        specialize (Hle x Hx). lia.
    + split; [left|].
      intros x [[= ->]|Hx]%elem_of_cons; [lia|]. by apply IH in Hx.
    + destruct IH as [Hu Hle]. split; [by right|].
      intros x [[=]|Hx]%elem_of_cons. by apply Hle.
    + intros x [[=]|Hx]%elem_of_cons. by apply IH in Hx.
Qed.



(** An integer below [2^53] in magnitude is the double it converts to. *)
Lemma float_of_int_exact (z : Z) :
  Z.abs z ≤ 2 ^ 53 → float_of_int z = inject_Z z.
Proof.
  intros Hz. unfold float_of_int. cbn zeta.
  by rewrite (proj2 (Z.leb_le _ _) Hz).
Qed.

Lemma np_lt_exact (x : Z) (v : pyval) :
  Z.abs x ≤ 2 ^ 53 → np_lt x v = lt_number (inject_Z x) v.
Proof.
  intros Hx. destruct v; try reflexivity.
  unfold np_lt, lt_number. cbn. by rewrite float_of_int_exact.
Qed.

Lemma np_gt_exact (x : Z) (v : pyval) :
  Z.abs x ≤ 2 ^ 53 → np_gt x v = gt_number (inject_Z x) v.
Proof.
  intros Hx. destruct v; try reflexivity.
  unfold np_gt, gt_number. cbn. by rewrite float_of_int_exact.
Qed.

Lemma labelled_cons {V} (n name : string) (s : pd.Series V)
    (cs : list (string * pd.Series V)) :
  pd.labelled name ((n, s) :: cs)
  = if decide (n = name) then s :: pd.labelled name cs
    else pd.labelled name cs.
Proof. unfold pd.labelled. cbn. by case_decide. Qed.

Lemma labelled_nil {V} (cs : list (string * pd.Series V)) (name : string) :
  pd.labelled name cs = [] ↔ name ∉ cs.*1.
Proof.
  induction cs as [|[n s] cs IH].
  - split; [intros _ ?%elem_of_nil; done|done].
  - rewrite labelled_cons, fmap_cons, not_elem_of_cons. cbn [fst].
    destruct (decide (n = name)) as [->|Hne].
    + split; [done|]. by intros [? _].
    + rewrite IH. split; [by intros ?; split; [congruence|]|by intros [_ ?]].
Qed.

Lemma getitem_one {V} (df : pd.DataFrame V) (name : string) (s : pd.Series V) :
  pd.labelled name (pd.data df) = [s] →
  pd.getitem df (PStr name) = Ok (pd.One_series s).
Proof. unfold pd.getitem. by intros ->. Qed.

Lemma getitem_absent {V} (df : pd.DataFrame V) (name : string) :
  name ∉ pd.columns df → pd.getitem df (PStr name) = Raise (KeyError (PStr name)).
Proof. intros Hname%labelled_nil. unfold pd.getitem. by rewrite Hname. Qed.

Lemma getitem_several {V} (df : pd.DataFrame V) (name : string) :
  (2 ≤ length (pd.labelled name (pd.data df)))%nat →
  pd.getitem df (PStr name)
  = Ok (pd.Sub_frame (pd.labelled name (pd.data df))).
Proof.
  unfold pd.getitem.
  destruct (pd.labelled name (pd.data df)) as [|s [|s' rest]]; cbn;
    [lia|lia|done].
Qed.

(** Under distinct labels a label selects the one column that has it. *)
Lemma labelled_NoDup {V} (cs : list (string * pd.Series V)) (name : string)
    (s : pd.Series V) :
  NoDup cs.*1 → (name, s) ∈ cs → pd.labelled name cs = [s].
Proof.
  induction cs as [|[n s0] cs IH]; [by intros _ ?%elem_of_nil|].
  rewrite fmap_cons. cbn [fst].
  intros [Hfresh Hrest]%NoDup_cons Hin. rewrite labelled_cons.
  apply elem_of_cons in Hin as [[= -> ->]|Hin].
  - rewrite decide_True by done. f_equal. by apply labelled_nil.
  - rewrite decide_False; [by apply IH|].
    intros ->. apply Hfresh. apply list_elem_of_fmap. by exists (name, s).
Qed.

(** A label that occurs selects at least one column. *)
Lemma labelled_present {V} (cs : list (string * pd.Series V)) (name : string) :
  name ∈ cs.*1 → (1 ≤ length (pd.labelled name cs))%nat.
Proof.
  intros Hname. destruct (pd.labelled name cs) eqn:E; [|cbn; lia].
  by apply labelled_nil in E.
Qed.

(** Labels each of which selects one column are distinct. *)
Lemma NoDup_labelled {V} (cs : list (string * pd.Series V)) :
  (∀ name, name ∈ cs.*1 → length (pd.labelled name cs) = 1%nat) →
  NoDup cs.*1.
Proof.
  induction cs as [|[n s] cs IH]; [constructor|].
  rewrite fmap_cons. cbn [fst]. intros Hone. apply NoDup_cons. split.
  - specialize (Hone n ltac:(left)). rewrite labelled_cons in Hone.
    rewrite decide_True in Hone by done. cbn in Hone.
    apply labelled_nil. destruct (pd.labelled n cs); [done|cbn in Hone; lia].
  - apply IH. intros name Hname.
    pose proof (labelled_present cs name Hname) as Hpresent.
    specialize (Hone name ltac:(by right)). rewrite labelled_cons in Hone.
    destruct (decide (n = name)); cbn in Hone; lia.
Qed.

Lemma check_constraint_unrecognized (df : pd.DataFrame Z) c :
  recognized c = false → check_constraint df c = Ok true.
Proof.
  unfold recognized, check_constraint. cbn zeta.
  intros Hc. apply orb_false_elim in Hc as [Hc Hmax].
  apply orb_false_elim in Hc as [Hnull Hmin].
  by rewrite Hnull, Hmin, Hmax.
Qed.

Lemma validate_constraints_try_filter (df : pd.DataFrame Z) cs :
  validate_constraints_try df cs
  = validate_constraints_try df (filter (λ c, recognized c = true) cs).
Proof.
  induction cs as [|c cs IH]; [done|].
  rewrite filter_cons. destruct (recognized c) eqn:Ec.
  - rewrite decide_True by done. cbn. by rewrite IH.
  - rewrite decide_False by done. cbn.
    by rewrite check_constraint_unrecognized.
Qed.
End ConstraintFacts.

(** * The properties of the specification *)

Section PipelineClaims.
Context `{PyText} {V : Type} `{EqDecision V}.

Lemma generate_run_returns (g : PipelineGenerator.t) now (df : pd.DataFrame V) :
  (generate_run g now df).1
  = Ok (pipeline_results (PipelineGenerator.self (cur (generate_run g now df).2))).
Proof.
  destruct (ValidationEngine.validate_schema (validation_engine g) df) eqn:Hv.
  - destruct (enforce_sla_ok (sla_enforcer g) now df) as [sla Hsla].
    destruct (generate_run_valid g now df sla Hv) as [-> ->]; [by rewrite Hsla|].
    done.
  - by destruct (generate_run_invalid g now df Hv) as [-> ->].
Qed.

(** C1.  If the schema check fails, the report that [generate] returns
    (and stores) has [success = False] and exactly one step, named
    "schema_validation" with status "failed"; no "data_quality" or
    "sla_enforcement" step is present, and of the collaborators only
    [validate_schema] has been called: neither the quality profiler nor
    the SLA enforcer.  This holds for a generator in any state, hence for
    the one built from any contract. *)
Theorem schema_failure_short_circuits
    (g : PipelineGenerator.t) (now : string) (df : pd.DataFrame V) :
  ValidationEngine.validate_schema (validation_engine g) df = false →
  ∃ r g',
    generate g now df = (Ok r, g') ∧ get_results g' = r
    ∧ success r = Some false
    ∧ (∃ d, steps r = Some [{| name := "schema_validation";
                               status := "failed";
                               step_details := d |}])
    ∧ (∀ l st, steps r = Some l → st ∈ l →
         name st ≠ "data_quality" ∧ name st ≠ "sla_enforcement")
    ∧ invoked (cur (generate_run g now df).2) = [Validate_schema].
Proof.
  intros Hv. destruct (generate_run_invalid g now df Hv) as [Hr Hcur].
  cbn zeta in Hr, Hcur. eexists _, _. unfold generate.
  rewrite Hr, Hcur. cbn.
  split; [reflexivity|]. split; [reflexivity|]. split; [reflexivity|].
  split; [by eexists|]. split; [|reflexivity].
  intros l st [= <-] ->%list_elem_of_singleton. by cbn.
Qed.

(** C2.  If the schema check passes, the report that [generate] returns
    has exactly three steps, named in this order "schema_validation",
    "data_quality", "sla_enforcement"; the collaborators were called in
    that order. *)
Theorem schema_success_three_steps
    (g : PipelineGenerator.t) (now : string) (df : pd.DataFrame V) :
  ValidationEngine.validate_schema (validation_engine g) df = true →
  ∃ r g' l,
    generate g now df = (Ok r, g') ∧ get_results g' = r
    ∧ steps r = Some l
    ∧ name <$> l = ["schema_validation"; "data_quality"; "sla_enforcement"]
    ∧ invoked (cur (generate_run g now df).2)
      = [Validate_schema; Validate_data_quality; Enforce_sla].
Proof.
  intros Hv. destruct (enforce_sla_ok (sla_enforcer g) now df) as [sla Hsla].
  destruct (generate_run_valid g now df sla Hv) as [Hr Hcur];
    [by rewrite Hsla|].
  cbn zeta in Hr, Hcur. eexists _, _, _. unfold generate.
  rewrite Hr, Hcur. cbn. by repeat split.
Qed.

(** C3.  Monotonic failure.  Within one run of [generate], leave the
    state found on entry aside: the [success] entry of the report is
    [True] in the first state that has the report, and no state in which
    it is [False] is followed by one in which it is anything else, up to
    the report returned.  Likewise within one call of [enforce_sla]:
    [sla_passed] is [True] in the first state, a state in which it is
    [False] is followed by such states only, and the last of them is the
    result. *)
Theorem monotonic_failure :
  (∀ (g : PipelineGenerator.t) (now : string) (df : pd.DataFrame V),
     ∃ entry hist r,
       states (generate_run g now df).2 = entry :: hist
       ∧ PipelineGenerator.self entry = g
       ∧ (generate g now df).1 = Ok r
       ∧ let flags :=
           (λ f, success (pipeline_results (PipelineGenerator.self f))) <$> hist in
         flags !! 0%nat = Some (Some true)
         ∧ stays_false (Some false) flags
         ∧ last flags = Some (success r))
  ∧ (∀ (s : SLAEnforcer.t) (now : string) (df : pd.DataFrame V),
       ∃ r,
         (enforce_sla s now df).1 = Ok r
         ∧ let flags :=
             (λ f, sla_passed (results f)) <$> states (enforce_sla_run s now df).2 in
           flags !! 0%nat = Some true
           ∧ stays_false false flags
           ∧ last flags = Some (sla_passed r)).
Proof.
  split.
  - intros g now df.
    set (f0 := {| PipelineGenerator.self := g; invoked := [] |}).
    set (f1 := with_results {| input_rows := Some (pd.len df);
                               steps := Some []; success := Some true |} f0).
    set (t1 := {| cur := f1; past := [f0] |}).
    assert (generate_run g now df = generate_steps now df t1) as Hrun
      by reflexivity.
    pose proof (generate_steps_step now df t1) as Hext.
    rewrite <- Hrun in Hext.
    apply extends_states in Hext as (news & Hst & Hord & Hlast);
      [|apply _..].
    exists f0, (f1 :: news),
      (pipeline_results (PipelineGenerator.self (cur (generate_run g now df).2))).
    split; [exact Hst|]. split; [reflexivity|].
    split; [unfold generate; cbn; apply generate_run_returns|].
    cbn zeta. split; [reflexivity|]. split.
    + apply (ordered_stays_false report_step); [|exact Hord].
      intros x y Hxy. exact Hxy.
    + rewrite fmap_last. cbn in Hlast. by rewrite Hlast.
  - intros s now df.
    pose proof (enforce_sla_run_extends s now df) as Hext.
    set (f0 := {| SLAEnforcer.self := s;
                  results := {| timestamp := now; sla_passed := true;
                                violations := []; metrics := ∅ |} |}) in Hext.
    apply extends_states in Hext as (news & Hst & Hord & Hlast);
      [|apply _..].
    change (states (start f0) ++ news) with (f0 :: news) in Hst.
    change (cur (start f0)) with f0 in Hord, Hlast.
    eexists. split; [unfold enforce_sla; cbn; apply enforce_sla_run_returns|].
    cbn zeta. rewrite Hst. split; [reflexivity|]. split.
    + apply (ordered_stays_false sla_step); [|exact Hord].
      intros x y (_ & _ & Hxy & _). exact Hxy.
    + rewrite fmap_last. by rewrite Hlast.
Qed.
End PipelineClaims.

Ltac sla_case :=
  match goal with
  | |- context [match ?m !! ?k with _ => _ end] => destruct (m !! k) eqn:?
  | |- context [match as_number ?v with _ => _ end] =>
      destruct (as_number v) eqn:?
  | |- context [if Qltb ?a ?b then _ else _] => destruct (Qltb a b) eqn:?
  | |- context [0 <? total_cells ?df] => destruct (Z.ltb_spec 0 (total_cells df))
  | |- context [total_cells ?df =? 0] => destruct (Z.eqb_spec (total_cells df) 0)
  end; cbn; try lia.

Ltac fold_total_cells df :=
  change (pd.len df * Z.of_nat (length (pd.columns df))) with (total_cells df).

Section SlaClaims.
Context `{PyText} {V : Type}.






(** C7.  The source records "row_count" in the "min_rows" branch only:
    a rule set that has no "min_rows" (one with "max_rows" alone, say)
    yields metrics without "row_count", where the specification wants it
    whenever either row bound is configured. *)
Theorem row_count_recorded_by_min_rows_only
    (s : SLAEnforcer.t) (now : string) (df : pd.DataFrame V) :
  sla_rules s !! "min_rows" = None →
  ∃ r, (enforce_sla s now df).1 = Ok r ∧ metrics r !! "row_count" = None.
Proof.
  intros Hm. destruct (enforce_sla_ok s now df) as [r Hr]. exists r.
  split; [by rewrite Hr|].
  revert Hr. unfold_sla. fold_total_cells df. rewrite Hm. cbn.
  repeat sla_case; intros [= <-]; cbn;
    by rewrite ?lookup_insert_ne, lookup_empty by done.
Qed.

Lemma enforce_all_self (s : SLAEnforcer.t)
    (calls : list (string * pd.DataFrame V)) :
  enforce_all s calls = s.
Proof.
  induction calls as [|[now df] calls IH] in s |- *; [done|].
  change (enforce_all s ((now, df) :: calls))
    with (enforce_all (enforce_sla s now df).2 calls).
  by rewrite enforce_sla_self.
Qed.

(** C9.  [enforce_sla] never assigns to [self.metrics]: after any
    sequence of [enforce_sla] calls on an instance, [get_metrics] returns
    the empty mapping that [__init__] stored. *)
Theorem get_metrics_stays_empty
    (rules : gmap string pyval) (calls : list (string * pd.DataFrame V)) :
  get_metrics (enforce_all (SLAEnforcer.init rules) calls) = ∅.
Proof. by rewrite enforce_all_self. Qed.
End SlaClaims.

Section ConstraintClaims.
Import ValidationEngine.

Lemma recognized_types (c : gmap string pyval) :
  recognized c = true
  ↔ ∃ ty, c !! "type" = Some (PStr ty)
          ∧ ty ∈ ["not_null"; "min_value"; "max_value"].
Proof.
  unfold recognized, dict_get. cbn zeta. split.
  - destruct (c !! "type") as [[| | | |ty|]|]; cbn; try done.
    intros Hty. exists ty. split; [done|].
    apply orb_true_iff in Hty as [[Hty|Hty]%orb_true_iff|Hty];
      apply bool_decide_eq_true in Hty as ->; set_solver.
  - intros (ty & -> & Hty). cbn. rewrite !elem_of_cons in Hty.
    by destruct Hty as [->|[->|[->|Hty%elem_of_nil]]].
Qed.


(** C10.  A constraint whose type is none of "not_null", "min_value" and
    "max_value", a missing type included, is not recognized, and
    [validate_constraints] skips it: dropping the constraints that are
    not recognized from a list changes no result, and a list of such
    constraints alone validates [True], on every table. *)
Theorem unrecognized_constraints_are_skipped
    (self : ValidationEngine.t) (df : pd.DataFrame Z)
    (constraints : list (gmap string pyval)) :
  (∀ c, recognized c = false
        ↔ ¬ ∃ ty, c !! "type" = Some (PStr ty)
                  ∧ ty ∈ ["not_null"; "min_value"; "max_value"])
  ∧ (∀ c, c !! "type" = None → recognized c = false)
  ∧ validate_constraints self df constraints
    = validate_constraints self df
        (filter (λ c, recognized c = true) constraints)
  ∧ (Forall (λ c, recognized c = false) constraints →
     validate_constraints self df constraints = true).
Proof.
  split; [|split; [|split]].
  - intros c. rewrite <- recognized_types. by destruct (recognized c).
  - intros c Hc. unfold recognized, dict_get. by rewrite Hc.
  - unfold validate_constraints. by rewrite validate_constraints_try_filter.
  - intros Hall. unfold validate_constraints.
    induction Hall as [|c cs Hc _ IH]; [done|].
    cbn. by rewrite check_constraint_unrecognized.
Qed.
End ConstraintClaims.

(** * The properties on closed inputs *)

Section Witnesses.
Import Samples ValidationEngine.



(** A contract that requires an "email" column, a table that lacks it. *)
Lemma schema_failure_short_circuits_witness :
  validate_schema
    (validation_engine (PipelineGenerator.init (contract_of ["id"; "email"] ∅)))
    two_rows = false
  ∧ ∃ r g',
      generate (PipelineGenerator.init (contract_of ["id"; "email"] ∅))
        "2024-05-01T00:00:00+00:00" two_rows = (Ok r, g')
      ∧ success r = Some false
      ∧ length <$> steps r = Some 1%nat.
Proof.
  split; [vm_compute; reflexivity|].
  destruct (schema_failure_short_circuits
              (PipelineGenerator.init (contract_of ["id"; "email"] ∅))
              "2024-05-01T00:00:00+00:00" two_rows)
    as (r & g' & Hgen & _ & Hsuccess & [d Hsteps] & _);
    [vm_compute; reflexivity|].
  exists r, g'. split; [exact Hgen|]. split; [exact Hsuccess|].
  rewrite Hsteps. reflexivity.
Defined.

(** A contract whose columns the table has. *)
Lemma schema_success_three_steps_witness :
  validate_schema
    (validation_engine
       (PipelineGenerator.init (contract_of ["id"; "age"] {[ "min_rows" := PInt 1 ]})))
    two_rows = true
  ∧ ∃ r g' l,
      generate
        (PipelineGenerator.init (contract_of ["id"; "age"] {[ "min_rows" := PInt 1 ]}))
        "2024-05-01T00:00:00+00:00" two_rows = (Ok r, g')
      ∧ steps r = Some l
      ∧ name <$> l = ["schema_validation"; "data_quality"; "sla_enforcement"].
Proof.
  split; [vm_compute; reflexivity|].
  destruct (schema_success_three_steps
              (PipelineGenerator.init
                 (contract_of ["id"; "age"] {[ "min_rows" := PInt 1 ]}))
              "2024-05-01T00:00:00+00:00" two_rows)
    as (r & g' & l & Hgen & _ & Hsteps & Hnames & _);
    [vm_compute; reflexivity|].
  exists r, g', l. by repeat split.
Defined.




(** An upper bound alone. *)
Lemma row_count_recorded_by_min_rows_only_witness :
  (SLAEnforcer.init {[ "max_rows" := PInt 10 ]}).(sla_rules) !! "min_rows" = None
  ∧ ∃ r,
      (enforce_sla (SLAEnforcer.init {[ "max_rows" := PInt 10 ]})
         "2024-05-01T00:00:00+00:00" two_rows).1 = Ok r
      ∧ metrics r !! "row_count" = None.
Proof.
  split; [vm_compute; reflexivity|].
  apply (row_count_recorded_by_min_rows_only
           (SLAEnforcer.init {[ "max_rows" := PInt 10 ]})).
  vm_compute; reflexivity.
Defined.


(** A constraint of a type the checker does not know, and one without
    a type. *)
Lemma unrecognized_constraints_are_skipped_witness :
  Forall (λ c, recognized c = false)
    [constraint_on "unique" "id" PNone; {[ "column" := PStr "id" ]}]
  ∧ validate_constraints (ValidationEngine.init ∅) two_rows
      [constraint_on "unique" "id" PNone; {[ "column" := PStr "id" ]}] = true.
Proof.
  assert (Forall (λ c, recognized c = false)
            [constraint_on "unique" "id" PNone; {[ "column" := PStr "id" ]}])
    as Hall by (repeat constructor).
  split; [exact Hall|].
  by apply (unrecognized_constraints_are_skipped (ValidationEngine.init ∅)
              two_rows).
Defined.
End Witnesses.

(** * Where a claim as the specification words it fails *)

Section Counterexamples.
Import Samples ValidationEngine.



End Counterexamples.

(** * The tests and scenarios of the repository, replayed *)

Section Replayed.
Import Samples ValidationEngine.

(** [test_enforce_sla_min_rows_passed], on three rows. *)
Example replay_min_rows_passed :
  ∃ r, (enforce_sla (SLAEnforcer.init {[ "min_rows" := PInt 2 ]})
          "2024-05-01T00:00:00+00:00" ages).1 = Ok r
       ∧ sla_passed r = true
       ∧ metrics r !! "row_count" = Some (PInt 3).
Proof. eexists. split; [vm_compute; reflexivity|]. by vm_compute. Qed.

(** [test_enforce_sla_max_rows_passed]. *)
Example replay_max_rows_passed :
  ∃ r, (enforce_sla (SLAEnforcer.init {[ "max_rows" := PInt 10 ]})
          "2024-05-01T00:00:00+00:00" two_rows).1 = Ok r
       ∧ sla_passed r = true ∧ violations r = [].
Proof. eexists. split; [vm_compute; reflexivity|]. by vm_compute. Qed.

(** [test_enforce_sla_completeness_passed]: five cells of six present,
    against a threshold of 0.8. *)
Example replay_completeness_passed :
  ∃ r, (enforce_sla
          (SLAEnforcer.init {[ "completeness_threshold" := PFloat (8 # 10) ]})
          "2024-05-01T00:00:00+00:00" ids_and_names).1 = Ok r
       ∧ sla_passed r = true
       ∧ metrics r !! "completeness" = Some (PFloat (5 # 6)).
Proof. eexists. split; [vm_compute; reflexivity|]. by vm_compute. Qed.

(** [test_enforce_sla_completeness_failed] and scenario 4: three cells of
    six present, against a threshold of 0.95. *)
Example replay_completeness_failed :
  ∃ r, (enforce_sla
          (SLAEnforcer.init {[ "completeness_threshold" := PFloat (95 # 100) ]})
          "2024-05-01T00:00:00+00:00" mostly_missing).1 = Ok r
       ∧ sla_passed r = false
       ∧ violations r
         = [completeness_message (format_pct (3 # 6)) (format_pct (95 # 100))].
Proof. eexists. split; [vm_compute; reflexivity|]. by vm_compute. Qed.

(** A table without columns: the division is not attempted. *)
Example replay_no_columns :
  ∃ r, (enforce_sla
          (SLAEnforcer.init {[ "completeness_threshold" := PFloat (95 # 100) ]})
          "2024-05-01T00:00:00+00:00" no_columns).1 = Ok r
       ∧ sla_passed r = true
       ∧ metrics r !! "completeness" = Some (PFloat 1).
Proof. eexists. split; [vm_compute; reflexivity|]. by vm_compute. Qed.

(** Outside the data model: a "min_rows" that is not a number ends the
    [try] block, and the "max_rows" rule behind it, although exceeded, is
    not evaluated; the handler reports the error instead. *)
Example replay_bound_that_is_no_number :
  (enforce_sla
     (SLAEnforcer.init (<[ "min_rows" := PStr "ten" ]> {[ "max_rows" := PInt 1 ]}))
     "2024-05-01T00:00:00+00:00" two_rows).1
  = Ok {| timestamp := "2024-05-01T00:00:00+00:00";
          sla_passed := false;
          violations := [error_message (TypeError "<" (PStr "ten"))];
          metrics := {[ "row_count" := PInt 2 ]} |}.
Proof. vm_compute; reflexivity. Qed.

(** [test_validate_schema_invalid]: the "email" column is missing. *)
Example replay_schema_invalid :
  validate_schema
    (ValidationEngine.init
       (DataContract.get_schema (contract_of ["id"; "name"; "email"] ∅)))
    ids_and_names = false.
Proof. vm_compute; reflexivity. Qed.

(** A schema without "columns", and one whose "columns" is no mapping. *)
Example replay_schema_shapes :
  validate_schema (ValidationEngine.init ∅) ids_and_names = true
  ∧ validate_schema (ValidationEngine.init {[ "columns" := PNone ]})
      ids_and_names = false.
Proof. split; vm_compute; reflexivity. Qed.

(** [test_validate_data_quality], and scenario 5 on a table with one
    repeated row. *)
Example replay_data_quality :
  null_counts (validate_data_quality (ValidationEngine.init ∅) ids_and_names)
    !! "id" = Some 1
  ∧ null_counts (validate_data_quality (ValidationEngine.init ∅) ids_and_names)
      !! "name" = Some 0
  ∧ total_rows (validate_data_quality (ValidationEngine.init ∅) ids_and_names) = 3
  ∧ duplicate_rows (validate_data_quality (ValidationEngine.init ∅) one_duplicate)
    = 1.
Proof. repeat split; vm_compute; reflexivity. Qed.

(** [test_validate_constraints_not_null] and
    [test_validate_constraints_min_value]. *)
Example replay_constraints :
  validate_constraints (ValidationEngine.init ∅) sparse
    [constraint_on "not_null" "age" PNone] = false
  ∧ validate_constraints (ValidationEngine.init ∅) ages
      [constraint_on "min_value" "age" (PInt 18)] = true
  ∧ validate_constraints (ValidationEngine.init ∅) ages
      [constraint_on "min_value" "age" (PInt 20)] = false
  ∧ validate_constraints (ValidationEngine.init ∅) ages
      [constraint_on "max_value" "age" (PInt 30)] = true
  ∧ validate_constraints (ValidationEngine.init ∅) ages
      [constraint_on "max_value" "height" (PInt 30)] = false.
Proof. repeat split; vm_compute; reflexivity. Qed.

(** Scenario 3: a minimum of 100 rows against two. *)
Example replay_pipeline_sla_failure :
  ∃ r g' sla,
    generate
      (PipelineGenerator.init (contract_of ["id"; "age"] {[ "min_rows" := PInt 100 ]}))
      "2024-05-01T00:00:00+00:00" two_rows = (Ok r, g')
    ∧ success r = Some false
    ∧ input_rows r = Some 2
    ∧ last <$> steps r
      = Some (Some {| name := "sla_enforcement"; status := "failed";
                      step_details := Sla sla |})
    ∧ violations sla = ["Row count 2 is less than minimum 100"].
Proof.
  eexists _, _, _. split; [vm_compute; reflexivity|]. by vm_compute.
Qed.
End Replayed.


(** * Further properties of the validation engine *)

Section SchemaProperties.
Import ValidationEngine.
Context {V : Type}.

Lemma all_present_Forall (names : list string) (df : pd.DataFrame V) :
  all_present names df = true ↔ Forall (λ k, k ∈ pd.columns df) names.
Proof.
  induction names as [|k names IH]; cbn.
  - split; [constructor|done].
  - rewrite Forall_cons. case_bool_decide as Hk.
    + split; [done|]. by intros [? _].
    + rewrite IH. tauto.
Qed.

(** X1.  [validate_schema] is a presence check and nothing more.  It
    returns [True] exactly when the schema has no "columns" entry, or has
    a mapping there each of whose keys labels a column of the table; an
    entry that is no mapping makes it [False]. *)
Theorem validate_schema_presence
    (self : ValidationEngine.t) (df : pd.DataFrame V) :
  validate_schema self df = true
  ↔ schema self !! "columns" = None
    ∨ ∃ d, schema self !! "columns" = Some (PDict d)
           ∧ ∀ k, is_Some (d !! k) → k ∈ pd.columns df.
Proof.
  unfold validate_schema, validate_schema_try, keys.
  destruct (schema self !! "columns") as [v|] eqn:Ev; cbn.
  - destruct v as [| | | | |d];
      try (split; [done|]; by intros [?|(d & [=] & _)]).
    rewrite all_present_Forall, Forall_forall. split.
    + intros Hall. right. exists d. split; [done|].
      intros k [x Hx]. apply Hall. apply list_elem_of_fmap.
      exists (k, x). split; [done|]. by apply elem_of_map_to_list.
    + intros [?|(d' & [= <-] & Hall)]; [done|].
      intros k ([k' x] & -> & Hx%elem_of_map_to_list)%list_elem_of_fmap.
      apply Hall. by exists x.
  - rewrite map_to_list_empty. cbn. split; [by left|done].
Qed.

(** X2.  Neither the declared types nor the cells matter to
    [validate_schema]: two schemas that declare the same column names
    give the same answer on two tables that carry the same labels. *)
Theorem validate_schema_names_only
    (self self' : ValidationEngine.t) (df df' : pd.DataFrame V)
    (d d' : gmap string pyval) :
  schema self !! "columns" = Some (PDict d) →
  schema self' !! "columns" = Some (PDict d') →
  (∀ k, is_Some (d !! k) ↔ is_Some (d' !! k)) →
  (∀ k, k ∈ pd.columns df ↔ k ∈ pd.columns df') →
  validate_schema self df = validate_schema self' df'.
Proof.
  intros Hd Hd' Hkeys Hlabels.
  apply eq_true_iff_eq. rewrite !validate_schema_presence, Hd, Hd'.
  split; (intros [[=]|(d0 & [= <-] & Hall)]; right; eexists; split; [done|]);
    intros k Hk; apply Hlabels, Hall, Hkeys, Hk.
Qed.
End SchemaProperties.

Section QualityProperties.
Import ValidationEngine.
Context `{PyText} {V : Type} `{EqDecision V}.

Lemma length_remove_dups_le {A} `{EqDecision A} (l : list A) :
  (length (remove_dups l) ≤ length l)%nat.
Proof.
  induction l as [|x l IH]; cbn; [done|].
  destruct (decide_rel _ x l); cbn; lia.
Qed.

Lemma length_remove_dups_NoDup {A} `{EqDecision A} (l : list A) :
  length (remove_dups l) = length l ↔ NoDup l.
Proof.
  induction l as [|x l IH]; cbn.
  - split; [constructor|done].
  - rewrite NoDup_cons. pose proof (length_remove_dups_le l).
    destruct (decide_rel _ x l); cbn.
    + split; [lia|]. by intros [? _].
    + rewrite <- IH. split; [intros [=]; done|intros [_ ->]; done].
Qed.

Lemma remove_dups_nil_inv {A} `{EqDecision A} (l : list A) :
  remove_dups l = [] → l = [].
Proof.
  destruct l as [|x l]; [done|]. intros Hnil.
  assert (x ∈ remove_dups (x :: l)) as Hx by (apply elem_of_remove_dups; left).
  rewrite Hnil in Hx. by apply elem_of_nil in Hx.
Qed.

Lemma length_rows (df : pd.DataFrame V) :
  length (pd.rows df) = pd.index_len df.
Proof. unfold pd.rows. by rewrite length_fmap, length_seq. Qed.

Lemma isna_sum_bounds (s : pd.Series V) :
  0 ≤ pd.isna_sum s ≤ Z.of_nat (length s).
Proof.
  unfold pd.isna_sum. split; [lia|]. apply Nat2Z.inj_le, length_filter.
Qed.

(** The counts after the loop [for col in df.columns]: an entry per label,
    holding the count of a column under that label; the count of the
    column, when the label occurs once. *)
Lemma null_counts_loop (cols : list (string * pd.Series V)) :
  let counts : gmap string Z :=
    foldl (λ counts c, <[c.1 := pd.isna_sum c.2]> counts) ∅ cols in
  (∀ col, is_Some (counts !! col) ↔ col ∈ cols.*1)
  ∧ (∀ col n, counts !! col = Some n →
       ∃ s, (col, s) ∈ cols ∧ n = pd.isna_sum s)
  ∧ (NoDup cols.*1 →
     ∀ col s, (col, s) ∈ cols → counts !! col = Some (pd.isna_sum s)).
Proof.
  induction cols as [|[label s] cols IH] using rev_ind; cbn zeta.
  - cbn. split; [|split].
    + intros col. rewrite lookup_empty. split; [by intros [? ?]|].
      by intros ?%elem_of_nil.
    + intros col n. by rewrite lookup_empty.
    + intros _ col s' ?%elem_of_nil. done.
  - cbn zeta in IH. destruct IH as (IHdom & IHsome & IHnodup).
    rewrite foldl_snoc, fmap_app. cbn. split; [|split].
    + intros col. rewrite elem_of_app, list_elem_of_singleton.
      destruct (decide (label = col)) as [->|Hne].
      * rewrite lookup_insert_eq. split; [by right|by eexists].
      * rewrite lookup_insert_ne by done. rewrite IHdom.
        split; [by left|]. by intros [?|?].
    + intros col n. destruct (decide (label = col)) as [->|Hne].
      * rewrite lookup_insert_eq. intros [= <-]. exists s.
        split; [|done]. apply elem_of_app. right. by left.
      * rewrite lookup_insert_ne by done. intros (s' & Hin & ->)%IHsome.
        exists s'. split; [|done]. apply elem_of_app. by left.
    + intros Hnodup col s' Hin.
      apply NoDup_app in Hnodup as (Hnodup & Hfresh & _).
      apply elem_of_app in Hin as [Hin|Hin%list_elem_of_singleton].
      * assert (col ∈ cols.*1) as Hcol.
        { apply list_elem_of_fmap. by exists (col, s'). }
        rewrite lookup_insert_ne; [by apply IHnodup|].
        intros ->. apply (Hfresh col Hcol). by left.
      * injection Hin as -> ->. apply lookup_insert_eq.
Qed.

(** The loop over labels each of which selects one column: it ends
    without an exception, and has stored the count of that column under
    each label. *)
Lemma count_nulls_single (df : pd.DataFrame V) (cols : list string)
    (counts0 : gmap string Z) :
  (∀ col, col ∈ cols → ∃ s, pd.labelled col (pd.data df) = [s]) →
  ∃ counts,
    count_nulls df cols counts0 = (counts, None)
    ∧ ∀ col, counts !! col
             = if decide (col ∈ cols)
               then pd.isna_sum <$> head (pd.labelled col (pd.data df))
               else counts0 !! col.
Proof.
  induction cols as [|col0 cols IH] in counts0 |- *; intros Hsingle.
  - exists counts0. split; [done|]. intros col.
    rewrite decide_False; [done|]. by intros ?%elem_of_nil.
  - destruct (Hsingle col0 ltac:(left)) as [s0 Hs0].
    destruct (IH (<[col0 := pd.isna_sum s0]> counts0)) as (counts & Hrun & Hget).
    { intros col Hcol. apply Hsingle. by right. }
    exists counts. split.
    + cbn [count_nulls]. by rewrite (getitem_one df col0 s0 Hs0).
    + intros col. rewrite Hget.
      destruct (decide (col ∈ cols)) as [Hin|Hout].
      * rewrite decide_True; [done|]. by right.
      * destruct (decide (col = col0)) as [->|Hne].
        -- rewrite decide_True by left. by rewrite lookup_insert_eq, Hs0.
        -- rewrite lookup_insert_ne by done. rewrite decide_False; [done|].
           by intros [?|?]%elem_of_cons.
Qed.

(** The loop over labels of the table, whatever they select: it ends
    without an exception exactly when each label selects one column, and
    with the refusal of [int] otherwise; nothing is stored under a key
    that is no label. *)
Lemma count_nulls_outcome (df : pd.DataFrame V) (cols : list string)
    (counts0 : gmap string Z) :
  (∀ col, col ∈ cols → col ∈ pd.columns df) →
  ∃ counts o,
    count_nulls df cols counts0 = (counts, o)
    ∧ (o = None ∨ o = Some NotAScalar)
    ∧ (o = None →
       ∀ col, col ∈ cols → length (pd.labelled col (pd.data df)) = 1%nat)
    ∧ (∀ col, is_Some (counts !! col) →
              col ∈ cols ∨ is_Some (counts0 !! col)).
Proof.
  induction cols as [|col0 cols IH] in counts0 |- *; intros Hlabels.
  - exists counts0, None. split; [done|]. split; [by left|].
    split; [by intros _ col ?%elem_of_nil|]. by right.
  - pose proof (labelled_present (pd.data df) col0
                  (Hlabels col0 ltac:(left))) as Hpresent.
    cbn [count_nulls]. unfold pd.getitem.
    destruct (pd.labelled col0 (pd.data df)) as [|s0 [|s1 rest]] eqn:E;
      [cbn in Hpresent; lia| |].
    + destruct (IH (<[col0 := pd.isna_sum s0]> counts0))
        as (counts & o & Hrun & Ho & Hone & Hkeys).
      { intros col Hcol. apply Hlabels. by right. }
      exists counts, o. split; [done|]. split; [done|]. split.
      * intros Hnone col [->|Hcol]%elem_of_cons; [by rewrite E|by apply Hone].
      * intros col [Hcol|Hcol]%Hkeys; [by left; right|].
        destruct (decide (col = col0)) as [->|Hne]; [by left; left|].
        rewrite lookup_insert_ne in Hcol by done. by right.
    + exists counts0, (Some NotAScalar). split; [done|].
      split; [by right|]. split; [done|]. by right.
Qed.

(** On a table of distinct labels the quality report is that of the
    [try] block run to its end. *)
Lemma quality_distinct (self : ValidationEngine.t) (df : pd.DataFrame V) :
  NoDup (pd.columns df) →
  validate_data_quality self df
  = {| total_rows := pd.len df;
       null_counts :=
         foldl (λ counts c, <[c.1 := pd.isna_sum c.2]> counts) ∅ (pd.data df);
       duplicate_rows := pd.len df - pd.drop_duplicates_len df;
       validation_passed := true;
       error := None |}.
Proof.
  intros Hnodup. unfold validate_data_quality.
  destruct (count_nulls_single df (pd.columns df) ∅) as (counts & -> & Hget).
  { intros col (c & -> & Hc)%list_elem_of_fmap. exists c.2.
    apply labelled_NoDup; [done|]. by destruct c. }
  f_equal. apply map_eq. intros col. rewrite Hget.
  destruct (null_counts_loop (pd.data df)) as (Hdom & _ & Hsome).
  cbn zeta in Hdom, Hsome.
  destruct (decide (col ∈ pd.columns df)) as [Hin|Hout].
  - apply list_elem_of_fmap in Hin as ([col' s] & -> & Hin). cbn.
    rewrite (labelled_NoDup _ _ s Hnodup Hin). cbn.
    symmetry. by apply Hsome.
  - rewrite lookup_empty. symmetry. apply eq_None_not_Some.
    by rewrite Hdom.
Qed.

(** On a table with a repeated label the loop fails. *)
Lemma quality_repeated (self : ValidationEngine.t) (df : pd.DataFrame V) :
  ¬ NoDup (pd.columns df) →
  ∃ counts,
    validate_data_quality self df
    = {| total_rows := pd.len df;
         null_counts := counts;
         duplicate_rows := 0;
         validation_passed := false;
         error := Some (str_exn NotAScalar) |}
    ∧ ∀ col, is_Some (counts !! col) → col ∈ pd.columns df.
Proof.
  intros Hdup. unfold validate_data_quality.
  destruct (count_nulls_outcome df (pd.columns df) ∅)
    as (counts & o & -> & Ho & Hone & Hkeys); [done|].
  destruct Ho as [->| ->].
  - destruct Hdup. apply NoDup_labelled. by apply Hone.
  - exists counts. split; [done|]. intros col [Hcol|Hcol]%Hkeys; [done|].
    rewrite lookup_empty in Hcol. by destruct Hcol.
Qed.

(** X3.  What [validate_data_quality] reports.  On any table: the row
    count of the table, and [validation_passed = True] exactly when the
    column labels are distinct.  With distinct labels: no error; a number
    of duplicate rows that is never negative, never exceeds the row count,
    and falls short of it as soon as there is a row (the first occurrence
    is not a duplicate); a null count under every column label and under
    no other key, each the count of missing values of the column with
    that label and so between 0 and the length of that column.  With a
    repeated label the [except] branch answers: the error is the text of
    the refused conversion, the duplicate rows stay at 0, and null counts
    are stored under column labels only. *)
Theorem data_quality_bounds
    (self : ValidationEngine.t) (df : pd.DataFrame V) :
  let q := validate_data_quality self df in
  total_rows q = pd.len df
  ∧ (validation_passed q = true ↔ NoDup (pd.columns df))
  ∧ (NoDup (pd.columns df) →
       error q = None
       ∧ 0 ≤ duplicate_rows q ≤ total_rows q
       ∧ (0 < total_rows q → duplicate_rows q < total_rows q)
       ∧ (∀ col, is_Some (null_counts q !! col) ↔ col ∈ pd.columns df)
       ∧ (∀ col n, null_counts q !! col = Some n →
            ∃ s, (col, s) ∈ pd.data df ∧ n = pd.isna_sum s
                 ∧ 0 ≤ n ≤ Z.of_nat (length s)))
  ∧ (¬ NoDup (pd.columns df) →
       error q = Some (str_exn NotAScalar)
       ∧ duplicate_rows q = 0
       ∧ ∀ col, is_Some (null_counts q !! col) → col ∈ pd.columns df).
Proof.
  cbn zeta.
  assert (NoDup (pd.columns df) ∨ ¬ NoDup (pd.columns df)) as Hcase
    by (destruct (decide (NoDup (pd.columns df))); auto).
  split; [|split; [|split]].
  - destruct Hcase as [Hnodup|Hdup].
    + by rewrite quality_distinct.
    + by destruct (quality_repeated self df Hdup) as (counts & -> & _).
  - destruct Hcase as [Hnodup|Hdup].
    + by rewrite quality_distinct.
    + destruct (quality_repeated self df Hdup) as (counts & -> & _).
      cbn. split; [done|]. intros Hnodup. by destruct Hdup.
  - intros Hnodup. rewrite quality_distinct by done. cbn.
    destruct (null_counts_loop (pd.data df)) as (Hdom & Hsome & _).
    cbn zeta in Hdom, Hsome.
    split; [done|].
    assert (0 ≤ pd.len df - pd.drop_duplicates_len df ≤ pd.len df
            ∧ (0 < pd.len df →
               pd.len df - pd.drop_duplicates_len df < pd.len df))
      as [Hrange Hfirst].
    { unfold pd.drop_duplicates_len, pd.len.
      destruct (pd.empty df); [lia|].
      pose proof (length_remove_dups_le (pd.rows df)) as Hle.
      rewrite length_rows in Hle. split; [lia|]. intros Hpos.
      destruct (remove_dups (pd.rows df)) as [|r rs] eqn:Er; [|cbn; lia].
      apply remove_dups_nil_inv in Er. apply (f_equal length) in Er.
      rewrite length_rows in Er. cbn in Er. lia. }
    split; [exact Hrange|]. split; [exact Hfirst|]. split; [exact Hdom|].
    intros col n (s & Hin & ->)%Hsome. exists s.
    split; [done|]. split; [done|]. apply isna_sum_bounds.
  - intros Hdup. by destruct (quality_repeated self df Hdup) as (counts & -> & ?).
Qed.

(** X4.  On a table of distinct labels that has rows and columns,
    [validate_data_quality] reports no duplicate rows exactly when the
    rows are pairwise different, missing values comparing equal to each
    other.  On a table without rows or without columns it reports none,
    whatever the length of the index. *)
Theorem no_duplicates_iff_distinct_rows
    (self : ValidationEngine.t) (df : pd.DataFrame V) :
  NoDup (pd.columns df) →
  (pd.empty df = false →
     (duplicate_rows (validate_data_quality self df) = 0 ↔ NoDup (pd.rows df)))
  ∧ (pd.empty df = true →
       duplicate_rows (validate_data_quality self df) = 0).
Proof.
  intros Hnodup. rewrite quality_distinct by done.
  unfold pd.drop_duplicates_len, pd.len. cbn.
  split; intros ->; [|lia].
  rewrite <- length_remove_dups_NoDup, length_rows. lia.
Qed.
End QualityProperties.

Section ConstraintProperties.
Import ValidationEngine.

Lemma validate_constraints_cons (self : ValidationEngine.t)
    (df : pd.DataFrame Z) c cs :
  validate_constraints self df (c :: cs)
  = validate_constraints self df [c] && validate_constraints self df cs.
Proof.
  unfold validate_constraints. cbn.
  by destruct (check_constraint df c) as [[]|e].
Qed.

Lemma validate_constraints_forallb (self : ValidationEngine.t)
    (df : pd.DataFrame Z) cs :
  validate_constraints self df cs
  = forallb (λ c, validate_constraints self df [c]) cs.
Proof.
  induction cs as [|c cs IH]; [done|].
  rewrite validate_constraints_cons. cbn [forallb]. by rewrite IH.
Qed.

(** X5.  [validate_constraints] is the conjunction of its constraints: a
    list passes exactly when each of its parts passes, an exception
    counting as a failure; hence the order of the constraints does not
    change the answer. *)
Theorem validate_constraints_conjunction
    (self : ValidationEngine.t) (df : pd.DataFrame Z) :
  (∀ cs1 cs2,
     validate_constraints self df (cs1 ++ cs2)
     = validate_constraints self df cs1 && validate_constraints self df cs2)
  ∧ (∀ cs cs', cs ≡ₚ cs' →
       validate_constraints self df cs = validate_constraints self df cs').
Proof.
  split.
  - intros cs1 cs2. rewrite !validate_constraints_forallb.
    induction cs1 as [|c cs1 IH]; [done|]. cbn. by rewrite IH, andb_assoc.
  - intros cs cs' Hperm. rewrite !validate_constraints_forallb.
    induction Hperm as [|c cs cs' _ IH|c c' cs|cs cs' cs'' _ IH _ IH'];
      cbn; [done|by rewrite IH| |congruence].
    rewrite !andb_assoc.
    by rewrite (andb_comm (validate_constraints self df [c'])).
Qed.

Lemma isna_sum_cons {V} (c : option V) (s : pd.Series V) :
  pd.isna_sum (c :: s)
  = (match c with None => 1 | Some _ => 0 end) + pd.isna_sum s.
Proof.
  unfold pd.isna_sum. destruct c as [x|]; cbn.
  - by rewrite decide_False.
  - rewrite decide_True by done. cbn [length].
    rewrite Nat2Z.inj_succ, <- Z.add_1_l. reflexivity.
Qed.

Lemma isna_sum_zero {V} (s : pd.Series V) : pd.isna_sum s = 0 ↔ None ∉ s.
Proof.
  induction s as [|c s IH].
  - split; [intros _ ?%elem_of_nil; done|done].
  - rewrite isna_sum_cons, not_elem_of_cons.
    pose proof (isna_sum_bounds s) as [Hnn _].
    destruct c as [x|].
    + rewrite Z.add_0_l, IH. by split; [|intros [_ ?]].
    + split; [lia|by intros [? _]].
Qed.

(** What a recognized constraint does on a key that selects no single
    column: the lookup fails, or the truth value of a Series is refused. *)
Lemma check_constraint_no_column (df : pd.DataFrame Z)
    (c : gmap string pyval) :
  recognized c = true →
  (∀ label, c !! "column" = Some (PStr label) →
            length (pd.labelled label (pd.data df)) ≠ 1%nat) →
  ∃ e, check_constraint df c = Raise e.
Proof.
  intros (ty & Hty & Hknown)%recognized_types Hcol.
  assert ((∃ e, pd.getitem df (dict_get c "column") = Raise e)
          ∨ ∃ cols, pd.getitem df (dict_get c "column")
                    = Ok (pd.Sub_frame cols)) as Hsel.
  { unfold dict_get, pd.getitem.
    destruct (c !! "column") as [[| | | |label|]|] eqn:Ec; cbn; eauto.
    specialize (Hcol label eq_refl).
    destruct (pd.labelled label (pd.data df)) as [|s [|s' rest]];
      cbn in Hcol |- *; [eauto|done|eauto]. }
  assert (dict_get c "type" = PStr ty) as Etype
    by (unfold dict_get; by rewrite Hty).
  unfold check_constraint. cbn zeta. rewrite Etype.
  rewrite !elem_of_cons in Hknown.
  destruct Hknown as [->|[->|[->|?%elem_of_nil]]]; [| | |done];
    cbn -[pd.getitem]; destruct Hsel as [[e ->]|[cols ->]]; eauto.
  - destruct (lt_nan _); eauto.
  - destruct (gt_nan _); eauto.
Qed.

(** What a bound does with a value that is no number. *)
Lemma check_constraint_no_number (df : pd.DataFrame Z)
    (c : gmap string pyval) :
  recognized c = true →
  c !! "type" ≠ Some (PStr "not_null") →
  as_number (dict_get c "value") = None →
  ∃ e, check_constraint df c = Raise e.
Proof.
  intros (ty & Hty & Hknown)%recognized_types Hnot Hval.
  assert (∀ x, ∃ e, np_lt x (dict_get c "value") = Raise e) as Hlt.
  { intros x. unfold np_lt, lt_number.
    destruct (dict_get c "value"); try done; cbn; eauto. }
  assert (∀ x, ∃ e, np_gt x (dict_get c "value") = Raise e) as Hgt.
  { intros x. unfold np_gt, gt_number.
    destruct (dict_get c "value"); try done; cbn; eauto. }
  assert (dict_get c "type" = PStr ty) as Etype
    by (unfold dict_get; by rewrite Hty).
  unfold check_constraint. cbn zeta. rewrite Etype.
  unfold lt_nan, gt_nan. rewrite Hval.
  rewrite !elem_of_cons in Hknown.
  destruct Hknown as [->|[->|[->|?%elem_of_nil]]];
    [by rewrite Hty in Hnot| | |done]; cbn -[pd.getitem np_lt np_gt];
    destruct (pd.getitem df _) as [[s|cols]|e]; eauto.
  - destruct (pd.series_min s) as [x|]; [|eauto].
    destruct (Hlt x) as [e ->]. eauto.
  - destruct (pd.series_max s) as [x|]; [|eauto].
    destruct (Hgt x) as [e ->]. eauto.
Qed.

(** X6.  On a table of integers, a "not_null" constraint on a label that
    one column carries passes exactly when that column has no missing
    value; on a label that several columns carry it fails. *)
Theorem not_null_iff_no_missing
    (self : ValidationEngine.t) (df : pd.DataFrame Z)
    (constraint : gmap string pyval) (column : string) :
  constraint !! "type" = Some (PStr "not_null") →
  constraint !! "column" = Some (PStr column) →
  (∀ s, pd.labelled column (pd.data df) = [s] →
        (validate_constraints self df [constraint] = true ↔ None ∉ s))
  ∧ ((2 ≤ length (pd.labelled column (pd.data df)))%nat →
     validate_constraints self df [constraint] = false).
Proof.
  intros Hty Hcol.
  unfold validate_constraints, validate_constraints_try, check_constraint,
    dict_get.
  rewrite Hty, Hcol. cbn -[pd.getitem]. split.
  - intros s Hs%getitem_one. rewrite Hs, <- isna_sum_zero.
    pose proof (isna_sum_bounds s) as [Hnn _].
    destruct (Z.ltb_spec 0 (pd.isna_sum s)); cbn; split; (done || lia).
  - intros Hseveral%getitem_several. by rewrite Hseveral.
Qed.

(** X7.  Failures inside [validate_constraints] degrade to [False].  On a
    table of integers a list fails as soon as it holds, anywhere, a
    recognized constraint whose "column" is not the label of exactly one
    column of the table (a missing "column" entry and a repeated label
    included), or a "min_value" or "max_value" constraint whose "value"
    is missing, [None], a string or a mapping. *)
Theorem constraint_errors_fail
    (self : ValidationEngine.t) (df : pd.DataFrame Z)
    (constraints : list (gmap string pyval)) (c : gmap string pyval) :
  c ∈ constraints →
  recognized c = true →
  (∀ label, c !! "column" = Some (PStr label) →
            length (pd.labelled label (pd.data df)) ≠ 1%nat)
  ∨ (c !! "type" ≠ Some (PStr "not_null")
     ∧ as_number (dict_get c "value") = None) →
  validate_constraints self df constraints = false.
Proof.
  intros Hin Hrec Hbad.
  rewrite validate_constraints_forallb. apply not_true_is_false.
  intros Hall. rewrite forallb_forall in Hall.
  apply list_elem_of_In in Hin. specialize (Hall c Hin). revert Hall.
  assert (∃ e, check_constraint df c = Raise e) as [e He].
  { destruct Hbad as [Hcol|[Hnot Hval]].
    - by apply check_constraint_no_column.
    - by apply check_constraint_no_number. }
  unfold validate_constraints, validate_constraints_try. by rewrite He.
Qed.

(** X8.  What the bounds mean, on a column of integers below [2^53] in
    magnitude, the only one under its label.  With a number as its value,
    a "min_value" constraint passes exactly when no value present in the
    column lies below it, and a "max_value" constraint exactly when none
    lies above; so both pass on a column without values. *)
Theorem bounds_hold_for_every_value
    (self : ValidationEngine.t) (df : pd.DataFrame Z)
    (constraint : gmap string pyval) (column : string) (s : pd.Series Z)
    (value : pyval) (q : Q) :
  constraint !! "column" = Some (PStr column) →
  constraint !! "value" = Some value →
  as_number value = Some q →
  pd.labelled column (pd.data df) = [s] →
  (∀ x, Some x ∈ s → Z.abs x < 2 ^ 53) →
  (constraint !! "type" = Some (PStr "min_value") →
     (validate_constraints self df [constraint] = true
      ↔ ∀ x, Some x ∈ s → (q <= inject_Z x)%Q))
  ∧ (constraint !! "type" = Some (PStr "max_value") →
       (validate_constraints self df [constraint] = true
        ↔ ∀ x, Some x ∈ s → (inject_Z x <= q)%Q)).
Proof.
  intros Hcol Hval Hq Hs%getitem_one Hsmall. split; intros Hty.
  - pose proof (series_min_bound s) as Hb.
    assert (validate_constraints self df [constraint]
            = match pd.series_min s with
              | Some y => negb (Qltb (inject_Z y) q)
              | None => true
              end) as ->.
    { unfold validate_constraints, validate_constraints_try, check_constraint,
        dict_get.
      rewrite Hty, Hcol, Hval. cbn -[pd.getitem np_lt]. rewrite Hs.
      destruct (pd.series_min s) as [y|].
      - destruct Hb as [Hy _]. specialize (Hsmall y Hy).
        rewrite np_lt_exact by lia. unfold lt_number. rewrite Hq.
        by destruct (Qltb _ _).
      - unfold lt_nan. by rewrite Hq. }
    destruct (pd.series_min s) as [y|].
    + destruct Hb as [Hy Hleast]. rewrite negb_true_iff, Qltb_ge. split.
      * intros Hle x Hx. eapply Qle_trans; [exact Hle|].
        rewrite <- Zle_Qle. by apply Hleast.
      * intros Hall. by apply Hall.
    + split; [|done]. intros _ x Hx. by apply Hb in Hx.
  - pose proof (series_max_bound s) as Hb.
    assert (validate_constraints self df [constraint]
            = match pd.series_max s with
              | Some y => negb (Qltb q (inject_Z y))
              | None => true
              end) as ->.
    { unfold validate_constraints, validate_constraints_try, check_constraint,
        dict_get.
      rewrite Hty, Hcol, Hval. cbn -[pd.getitem np_gt]. rewrite Hs.
      destruct (pd.series_max s) as [y|].
      - destruct Hb as [Hy _]. specialize (Hsmall y Hy).
        rewrite np_gt_exact by lia. unfold gt_number. rewrite Hq.
        by destruct (Qltb _ _).
      - unfold gt_nan. by rewrite Hq. }
    destruct (pd.series_max s) as [y|].
    + destruct Hb as [Hy Hgreatest]. rewrite negb_true_iff, Qltb_ge. split.
      * intros Hle x Hx. eapply Qle_trans; [|exact Hle].
        rewrite <- Zle_Qle. by apply Hgreatest.
      * intros Hall. by apply Hall.
    + split; [|done]. intros _ x Hx. by apply Hb in Hx.
Qed.
End ConstraintProperties.

(** * Further properties of the SLA enforcer *)

Section SlaProperties.
Context `{PyText} {V : Type}.

(** X9.  The result of [enforce_sla], for any rule set and any table:
    the call returns; [sla_passed] is [True] exactly when [violations] is
    empty; there are at most three violations; the timestamp is the clock
    reading; and [metrics] has no key other than "row_count" and
    "completeness". *)
Theorem sla_result_invariants
    (s : SLAEnforcer.t) (now : string) (df : pd.DataFrame V) :
  ∃ r,
    (enforce_sla s now df).1 = Ok r
    ∧ (sla_passed r = true ↔ violations r = [])
    ∧ (length (violations r) ≤ 3)%nat
    ∧ timestamp r = now
    ∧ (∀ k, is_Some (metrics r !! k) → k = "row_count" ∨ k = "completeness").
Proof.
  destruct (enforce_sla_ok s now df) as [r Hr]. exists r.
  split; [by rewrite Hr|].
  revert Hr. unfold_sla. fold_total_cells df.
  repeat sla_case; intros [= <-]; cbn;
    (split; [done|]); (split; [lia|]); (split; [done|]);
    intros k [v Hv];
    (destruct (decide (k = "completeness")) as [->|?]; [by right|]);
    (destruct (decide (k = "row_count")) as [->|?]; [by left|]);
    by rewrite ?lookup_insert_ne, lookup_empty in Hv by done.
Qed.


(** X11.  Only the entries "min_rows", "max_rows" and
    "completeness_threshold" of the rule set are read: two instances whose
    rule sets agree on these three keys return the same result, whatever
    else the rule sets or [self.metrics] hold.  So an instance without
    any of the three passes every table, with no violation and no metric. *)
Theorem only_three_rules_are_read
    (s s' : SLAEnforcer.t) (now : string) (df : pd.DataFrame V) :
  sla_rules s !! "min_rows" = sla_rules s' !! "min_rows" →
  sla_rules s !! "max_rows" = sla_rules s' !! "max_rows" →
  sla_rules s !! "completeness_threshold"
    = sla_rules s' !! "completeness_threshold" →
  (enforce_sla s now df).1 = (enforce_sla s' now df).1
  ∧ (sla_rules s !! "min_rows" = None → sla_rules s !! "max_rows" = None →
     sla_rules s !! "completeness_threshold" = None →
     (enforce_sla s now df).1
     = Ok {| timestamp := now; sla_passed := true; violations := [];
             metrics := ∅ |}).
Proof.
  intros Hmin Hmax Hct. split.
  - unfold_sla. fold_total_cells df. rewrite Hmin.
    repeat (first [rewrite Hmax | rewrite Hct | sla_case]); reflexivity.
  - intros Emin Emax Ect. unfold_sla.
    rewrite Emin. cbn. rewrite Emax. cbn. by rewrite Ect.
Qed.


(** X13.  The first rule that cannot be evaluated ends the evaluation: a
    "min_rows" that is not a number yields [sla_passed = False], the error
    message as the only violation and "row_count" as the only metric,
    whether or not "max_rows" and "completeness_threshold" are configured
    or violated. *)
Theorem non_numeric_min_rows_ends_evaluation
    (s : SLAEnforcer.t) (now : string) (df : pd.DataFrame V) (v : pyval) :
  sla_rules s !! "min_rows" = Some v →
  as_number v = None →
  (enforce_sla s now df).1
  = Ok {| timestamp := now;
          sla_passed := false;
          violations := [error_message (TypeError "<" v)];
          metrics := {[ "row_count" := PInt (pd.len df) ]} |}.
Proof.
  intros Hv Hnum. unfold_sla. rewrite Hv. cbn. rewrite Hnum. cbn.
  by rewrite insert_empty.
Qed.
End SlaProperties.

Section CompletenessProperties.
Import ValidationEngine.
Context `{PyText} {V : Type} `{EqDecision V}.






End CompletenessProperties.

(** * Further properties of the pipeline *)

Section PipelineProperties.
Import ValidationEngine.
Context `{PyText} {V : Type} `{EqDecision V}.

(** X16.  What the report of [generate] says, on any table: the call
    returns; [input_rows] is the row count; [success] is [True] exactly
    when the schema check passed and the SLA result has
    [sla_passed = True], and [False] otherwise; and it is [False] exactly
    when one of the steps has status "failed". *)
Theorem success_is_schema_and_sla
    (g : PipelineGenerator.t) (now : string) (df : pd.DataFrame V) :
  ∃ r l,
    (generate g now df).1 = Ok r
    ∧ input_rows r = Some (pd.len df)
    ∧ steps r = Some l
    ∧ (success r = Some true
       ↔ validate_schema (validation_engine g) df = true
         ∧ ∃ sla, (enforce_sla (sla_enforcer g) now df).1 = Ok sla
                  ∧ sla_passed sla = true)
    ∧ (success r = Some true ∨ success r = Some false)
    ∧ (success r = Some false ↔ ∃ st, st ∈ l ∧ status st = "failed").
Proof.
  destruct (validate_schema (validation_engine g) df) eqn:Hv.
  - destruct (enforce_sla_ok (sla_enforcer g) now df) as [sla Hsla].
    destruct (generate_run_valid g now df sla Hv) as [Hr _];
      [by rewrite Hsla|].
    cbn zeta in Hr. eexists _, _. unfold generate. rewrite Hr, Hsla. cbn.
    split; [reflexivity|]. split; [reflexivity|]. split; [reflexivity|].
    split; [|split].
    + split.
      * intros [= Hpassed]. split; [done|]. by exists sla.
      * intros (_ & sla' & [= <-] & ->). done.
    + destruct (sla_passed sla); auto.
    + split.
      * intros [= Hfailed]. eexists. split; [by right; right; left|].
        cbn. by rewrite Hfailed.
      * intros (st & Hst & Hstatus). rewrite !elem_of_cons in Hst.
        destruct Hst as [->|[->|[->|?%elem_of_nil]]]; try done.
        cbn in Hstatus. by destruct (sla_passed sla).
  - destruct (generate_run_invalid g now df Hv) as [Hr _].
    cbn zeta in Hr. eexists _, _. unfold generate. rewrite Hr. cbn.
    split; [reflexivity|]. split; [reflexivity|]. split; [reflexivity|].
    split; [|split].
    + split; [done|]. by intros [? _].
    + by right.
    + split; [|done]. intros _. eexists. split; [by left|]. done.
Qed.

Lemma generate_explicit
    (g : PipelineGenerator.t) (now : string) (df : pd.DataFrame V) :
  ∃ r, generate g now df
       = (Ok r, {| contract := contract g;
                   validation_engine := validation_engine g;
                   sla_enforcer := sla_enforcer g;
                   pipeline_results := r |}).
Proof.
  unfold generate.
  destruct (validate_schema (validation_engine g) df) eqn:Hv.
  - destruct (enforce_sla_ok (sla_enforcer g) now df) as [sla Hsla].
    destruct (generate_run_valid g now df sla Hv) as [Hr Hcur];
      [by rewrite Hsla|].
    cbn zeta in Hr, Hcur. rewrite Hr, Hcur. by eexists.
  - destruct (generate_run_invalid g now df Hv) as [Hr Hcur].
    cbn zeta in Hr, Hcur. rewrite Hr, Hcur. by eexists.
Qed.

Lemma generate_same_engines
    (g g' : PipelineGenerator.t) (now : string) (df : pd.DataFrame V) :
  validation_engine g' = validation_engine g →
  sla_enforcer g' = sla_enforcer g →
  (generate g' now df).1 = (generate g now df).1.
Proof.
  intros He Hs.
  change ((generate g' now df).1) with ((generate_run g' now df).1).
  change ((generate g now df).1) with ((generate_run g now df).1).
  destruct (validate_schema (validation_engine g) df) eqn:Hv.
  - destruct (enforce_sla_ok (sla_enforcer g) now df) as [sla Hsla].
    destruct (generate_run_valid g now df sla Hv) as [-> _];
      [by rewrite Hsla|].
    rewrite <- He in Hv. rewrite <- Hs in Hsla.
    destruct (generate_run_valid g' now df sla Hv) as [-> _];
      [by rewrite Hsla|].
    by rewrite He.
  - destruct (generate_run_invalid g now df Hv) as [-> _].
    rewrite <- He in Hv.
    by destruct (generate_run_invalid g' now df Hv) as [-> _].
Qed.

(** X17.  [generate] starts a new report and leaves the rest of the
    instance alone: after a run the contract, the validation engine and
    the SLA enforcer are those before it, [get_results] gives the report
    just returned, and a further run reports what it would have reported
    without the first one: no step is carried over. *)
Theorem generate_starts_afresh
    (g : PipelineGenerator.t) (now now' : string) (df df' : pd.DataFrame V) :
  let g1 := (generate g now df).2 in
  contract g1 = contract g
  ∧ validation_engine g1 = validation_engine g
  ∧ sla_enforcer g1 = sla_enforcer g
  ∧ (generate g now df).1 = Ok (get_results g1)
  ∧ (generate g1 now' df').1 = (generate g now' df').1.
Proof.
  cbn zeta. destruct (generate_explicit g now df) as [r Hg].
  split; [by rewrite Hg|]. split; [by rewrite Hg|]. split; [by rewrite Hg|].
  split; [by rewrite Hg|].
  apply generate_same_engines; by rewrite Hg.
Qed.
End PipelineProperties.

(** * Properties of the handler and of [load_contract] *)

Section PathProperties.
Import lambda_handler.

Lemma prefix_app (p s : string) :
  String.prefix p s = true ↔ ∃ b, s = p +:+ b.
Proof.
  induction p as [|a p IH] in s |- *.
  - split; [by exists s|]. by destruct s.
  - destruct s as [|c s]; cbn; [split; [done|by intros [b [=]]]|].
    destruct (Ascii.ascii_dec a c) as [->|Hne].
    + rewrite IH. split; [intros [b ->]; by exists b|].
      intros [b [= ->]]. by exists b.
    + split; [done|]. intros [b [= -> _]]. done.
Qed.

Lemma remove_from_skip (old x rest : string) :
  remove_from old (String.length x) (x +:+ rest) = remove_from old 0 rest.
Proof.
  induction x as [|c x IH]; [done|].
  change (remove_from old (String.length x) (x +:+ rest)
          = remove_from old 0 rest).
  exact IH.
Qed.

Lemma remove_from_occurrence (a : Ascii.ascii) (old rest : string) :
  remove_from (String a old) 0 (String a old +:+ rest)
  = remove_from (String a old) 0 rest.
Proof.
  assert (String.prefix (String a old) (String a old +:+ rest) = true) as Hp.
  { apply prefix_app. by exists rest. }
  change (String a old +:+ rest) with (String a (old +:+ rest)) in *.
  cbn [remove_from]. rewrite Hp.
  change (String.length (String a old) - 1)%nat with (String.length old - 0)%nat.
  rewrite Nat.sub_0_r. apply remove_from_skip.
Qed.

Lemma remove_from_scheme (rest : string) :
  remove_from "s3://" 0 ("s3://" +:+ rest) = remove_from "s3://" 0 rest.
Proof. apply remove_from_occurrence. Qed.

(** Without an occurrence there is nothing to drop. *)
Lemma remove_from_nothing (old s : string) :
  (∀ a b, s ≠ a +:+ old +:+ b) → remove_from old 0 s = s.
Proof.
  induction s as [|c s IH]; [done|]. intros Hfree. cbn [remove_from].
  destruct (String.prefix old (String c s)) eqn:Hp.
  - apply prefix_app in Hp as [b Hb]. by destruct (Hfree "" b).
  - f_equal. apply IH. intros a b ->. by apply (Hfree (String c a) b).
Qed.

Lemma split_once_first (bucket key : string) :
  (∀ a b, bucket ≠ a +:+ "/" +:+ b) →
  split_once (bucket +:+ "/" +:+ key) = Some (bucket, key).
Proof.
  induction bucket as [|c bucket IH]; [done|]. intros Hfree.
  change (String c bucket +:+ "/" +:+ key)
    with (String c (bucket +:+ "/" +:+ key)).
  cbn [split_once].
  destruct (String.eqb_spec (String c "") "/") as [[= ->]|_].
  - by destruct (Hfree "" bucket).
  - rewrite IH; [done|]. intros a b ->. by apply (Hfree (String c a) b).
Qed.

Lemma split_once_none (s : string) :
  split_once s = None ↔ ∀ a b, s ≠ a +:+ "/" +:+ b.
Proof.
  induction s as [|c s IH]; cbn [split_once].
  - split; [|done]. intros _ [|? ?] b; done.
  - destruct (String.eqb_spec (String c "") "/") as [[= ->]|Hc].
    + split; [done|]. intros Hfree. by destruct (Hfree "" s).
    + destruct (split_once s) as [[a b]|] eqn:Es; cbn.
      * split; [done|]. intros Hfree.
        assert (∀ a b, s ≠ a +:+ "/" +:+ b) as Hs.
        { intros a' b' ->. by apply (Hfree (String c a') b'). }
        by apply IH in Hs.
      * split; [|done]. intros _ [|c' a] b.
        -- intros [= -> _]. done.
        -- intros [= _ Hs]. by apply (proj1 IH eq_refl a b).
Qed.

(** Dropping characters brings no "/" in. *)
Lemma split_once_remove_from (old : string) (s : string) (k : nat) :
  split_once s = None → split_once (remove_from old k s) = None.
Proof.
  induction s as [|c s IH] in k |- *; [done|]. cbn [split_once remove_from].
  destruct (String.eqb (String c "") "/") eqn:Ec; [done|].
  destruct (split_once s) as [[a b]|] eqn:Es; [done|]. intros _.
  destruct k as [|k]; [|by apply IH].
  destruct (String.prefix old (String c s)); [by apply IH|].
  cbn [split_once]. by rewrite Ec, IH.
Qed.

(** X18.  Bucket and key of an S3 path.  "s3://bucket/key" yields the
    pair of [bucket] and [key], the key keeping its own slashes, when the
    bucket has no "/" and "s3://" does not occur again behind the scheme. *)
Theorem bucket_and_key_of_s3_path (bucket key : string) :
  (∀ a b, bucket ≠ a +:+ "/" +:+ b) →
  (∀ a b, bucket +:+ "/" +:+ key ≠ a +:+ "s3://" +:+ b) →
  bucket_and_key ("s3://" +:+ bucket +:+ "/" +:+ key) = Done (bucket, key).
Proof.
  intros Hbucket Hscheme. unfold bucket_and_key.
  rewrite remove_from_scheme, remove_from_nothing by done.
  by rewrite split_once_first.
Qed.

(** X19.  A path without any "/" behind the scheme, such as
    "s3://bucket", has no key: unpacking fails with a [ValueError]. *)
Theorem bucket_without_key (bucket : string) :
  (∀ a b, bucket ≠ a +:+ "/" +:+ b) →
  bucket_and_key ("s3://" +:+ bucket)
  = Failed (Value_error "not enough values to unpack (expected 2, got 1)").
Proof.
  intros Hbucket. unfold bucket_and_key.
  rewrite remove_from_scheme.
  by rewrite split_once_remove_from by by apply split_once_none.
Qed.
End PathProperties.

Section HandlerProperties.
Import lambda_handler ValidationEngine.
Context `{PyText} {V W B : Type} `{EqDecision V} `{Services V W B}.

(** X20.  [load_contract] fails in two ways only: with a
    [FileNotFoundError] that names the path, or with a [ValueError] whose
    text starts "Failed to load contract: ".  A path that is not a string
    gives the second, without any read. *)
Theorem load_contract_failures (contract_path : pyval) (w : W) :
  (∀ e, load_contract contract_path w = Failed e →
        e = File_not_found
              ("Contract file not found: " +:+ py_str contract_path)
        ∨ ∃ text, e = Value_error ("Failed to load contract: " +:+ text))
  ∧ ((∀ s, contract_path ≠ PStr s) →
     load_contract contract_path w
     = Failed (Value_error
                 ("Failed to load contract: '" +:+ type_name contract_path
                  +:+ "' object has no attribute 'startswith'"))).
Proof.
  split.
  - intros e. unfold load_contract.
    destruct (load_contract_try contract_path w) as [c|[t|t|t|t]];
      [done|intros [= <-]..]; eauto.
  - intros Hnot. unfold load_contract, load_contract_try.
    destruct contract_path as [| | | |s|]; try done. by destruct (Hnot s).
Qed.

(** The verdict of a run of the pipeline. *)
Lemma generate_verdict
    (g : PipelineGenerator.t) (now : string) (df : pd.DataFrame V) :
  ∃ r, (generate g now df).1 = Ok r
       ∧ (success r = Some true ∨ success r = Some false)
       ∧ (success r = Some true
          ↔ validate_schema (validation_engine g) df = true
            ∧ ∃ sla, (enforce_sla (sla_enforcer g) now df).1 = Ok sla
                     ∧ sla_passed sla = true).
Proof.
  destruct (validate_schema (validation_engine g) df) eqn:Hv.
  - destruct (enforce_sla_ok (sla_enforcer g) now df) as [sla Hsla].
    destruct (generate_run_valid g now df sla Hv) as [Hr _];
      [by rewrite Hsla|].
    cbn zeta in Hr. eexists. unfold generate. rewrite Hr, Hsla. cbn.
    split; [reflexivity|]. split.
    + destruct (sla_passed sla); auto.
    + split.
      * intros [= Hpassed]. split; [done|]. by exists sla.
      * intros (_ & sla' & [= <-] & ->). done.
  - destruct (generate_run_invalid g now df Hv) as [Hr _].
    cbn zeta in Hr. eexists. unfold generate. rewrite Hr. cbn.
    split; [reflexivity|]. split; [by right|].
    split; [done|]. by intros [? _].
Qed.

Local Ltac handler_step :=
  cbn -[generate _read_csv _write_csv load_contract].

(** X21.  Without a usable "contract_path" in the event (missing, [None],
    an empty string, ...) the handler answers 500, naming the parameter,
    and leaves the world as it is: nothing is loaded, read or written. *)
Theorem handler_missing_contract_path
    (event : gmap string pyval) (now : string) (w : W) :
  truthy (dict_get event "contract_path") = false →
  handler event now w
  = ({| statusCode := 500;
        body := json_dumps
                  (Execution_failed
                     "Data contract execution failed: Missing required parameter: contract_path") |},
     w).
Proof. intros Hfalsy. unfold handler, handler_try. by rewrite Hfalsy. Qed.

(** X22.  The handler answers 200, 400 or 500 and nothing else.  With
    400 the world is untouched.  In every case the world is either
    untouched or what [_write_csv] left, called on the very table that
    was read and on the target path, after a report with
    [success = True]: no table that failed validation is ever written. *)
Theorem handler_writes_only_after_success
    (event : gmap string pyval) (now : string) (w : W) :
  let answer := handler event now w in
  (statusCode answer.1 = 200 ∨ statusCode answer.1 = 400
   ∨ statusCode answer.1 = 500)
  ∧ (statusCode answer.1 = 400 → answer.2 = w)
  ∧ (answer.2 = w
     ∨ ∃ contract df report,
         load_contract (dict_get event "contract_path") w = Done contract
         ∧ _read_csv (default (DataContract.source_s3_path contract)
                        (event !! "source_path")) w = Done df
         ∧ (generate (PipelineGenerator.init contract) now df).1 = Ok report
         ∧ success report = Some true
         ∧ answer.2
           = (_write_csv df (default (DataContract.target_s3_path contract)
                               (event !! "target_path")) w).2).
Proof.
  cbn zeta. unfold handler, handler_try. cbn zeta.
  destruct (truthy (dict_get event "contract_path")); handler_step; [|by auto].
  destruct (load_contract _ w) as [contract|e]; handler_step; [|by auto].
  destruct (negb (truthy (default _ (event !! "source_path")))
            || negb (truthy (default _ (event !! "target_path"))));
    handler_step; [by auto|].
  destruct (_read_csv _ w) as [df|e] eqn:Hread; handler_step; [|by auto].
  destruct (generate_verdict (PipelineGenerator.init contract) now df)
    as (report & Hreport & Hverdict & _).
  rewrite Hreport.
  destruct Hverdict as [Hsuccess|Hsuccess]; rewrite Hsuccess; handler_step; [|by auto].
  destruct (_write_csv df _ w) as [[[]|e] w'] eqn:Hwrite; handler_step.
  - split; [by auto|]. split; [done|]. right. exists contract, df, report.
    by rewrite Hwrite.
  - split; [by auto|]. split; [done|]. right. exists contract, df, report.
    by rewrite Hwrite.
Qed.

(** X23.  Once the contract is loaded, the paths are given and the table
    is read, the handler answers 400 exactly when the validation fails,
    that is unless the schema check passes and the SLA result has
    [sla_passed = True]; the body then carries the report and the world
    is untouched. *)
Theorem handler_rejects_invalid_data
    (event : gmap string pyval) (now : string) (w : W)
    (contract : DataContract.t) (df : pd.DataFrame V) :
  truthy (dict_get event "contract_path") = true →
  load_contract (dict_get event "contract_path") w = Done contract →
  truthy (default (DataContract.source_s3_path contract)
            (event !! "source_path")) = true →
  truthy (default (DataContract.target_s3_path contract)
            (event !! "target_path")) = true →
  _read_csv (default (DataContract.source_s3_path contract)
               (event !! "source_path")) w = Done df →
  (statusCode (handler event now w).1 = 400
   ↔ ¬ (validate_schema
          (ValidationEngine.init (DataContract.get_schema contract)) df = true
        ∧ ∃ sla, (enforce_sla (SLAEnforcer.init (DataContract.get_sla contract))
                    now df).1 = Ok sla
                 ∧ sla_passed sla = true))
  ∧ (statusCode (handler event now w).1 = 400 →
     ∃ report,
       (generate (PipelineGenerator.init contract) now df).1 = Ok report
       ∧ handler event now w
         = ({| statusCode := 400;
               body := json_dumps (Validation_failed report) |}, w)).
Proof.
  intros Hpath Hload Hsource Htarget Hread.
  unfold handler, handler_try. cbn zeta.
  rewrite Hpath, Hload, Hsource, Htarget, Hread. handler_step.
  destruct (generate_verdict (PipelineGenerator.init contract) now df)
    as (report & Hreport & Hverdict & Hiff).
  rewrite Hreport. cbn in Hiff.
  destruct Hverdict as [Hsuccess|Hsuccess]; rewrite Hsuccess; handler_step.
  - apply Hiff in Hsuccess.
    destruct (_write_csv df _ w) as [[[]|e] w']; handler_step;
      (split; [split; [done|tauto]|done]).
  - split; [|by eauto]. split; [|done]. intros _ Hpassed.
    apply Hiff in Hpassed. congruence.
Qed.

(** X24.  When the schema check passes, the SLA result has
    [sla_passed = True] and the write succeeds, the handler answers 200;
    the body names the contract and gives the row count of the table both
    as input and as output count, with the report; the world is the one
    the write left.  When the write fails instead, the answer is 500 with
    the text of that failure. *)
Theorem handler_writes_the_validated_table
    (event : gmap string pyval) (now : string) (w : W)
    (contract : DataContract.t) (df : pd.DataFrame V)
    (sla : SLAEnforcer.sla_result) :
  truthy (dict_get event "contract_path") = true →
  load_contract (dict_get event "contract_path") w = Done contract →
  truthy (default (DataContract.source_s3_path contract)
            (event !! "source_path")) = true →
  truthy (default (DataContract.target_s3_path contract)
            (event !! "target_path")) = true →
  _read_csv (default (DataContract.source_s3_path contract)
               (event !! "source_path")) w = Done df →
  validate_schema
    (ValidationEngine.init (DataContract.get_schema contract)) df = true →
  (enforce_sla (SLAEnforcer.init (DataContract.get_sla contract)) now df).1
    = Ok sla →
  sla_passed sla = true →
  ∃ report,
    (generate (PipelineGenerator.init contract) now df).1 = Ok report
    ∧ handler event now w
      = match _write_csv df (default (DataContract.target_s3_path contract)
                               (event !! "target_path")) w with
        | (Done _, w') =>
            ({| statusCode := 200;
                body := json_dumps
                          (Completed (DataContract.name contract) (pd.len df)
                             (pd.len df) report) |}, w')
        | (Failed e, w') =>
            ({| statusCode := 500;
                body := json_dumps
                          (Execution_failed
                             ("Data contract execution failed: "
                              +:+ str_error e)) |},
             w')
        end.
Proof.
  intros Hpath Hload Hsource Htarget Hread Hschema Hsla Hpassed.
  destruct (generate_verdict (PipelineGenerator.init contract) now df)
    as (report & Hreport & _ & Hiff).
  assert (success report = Some true) as Hsuccess.
  { apply Hiff. split; [exact Hschema|]. by exists sla. }
  exists report. split; [exact Hreport|].
  unfold handler, handler_try. cbn zeta.
  rewrite Hpath, Hload, Hsource, Htarget, Hread. handler_step.
  rewrite Hreport, Hsuccess. handler_step.
  by destruct (_write_csv df _ w) as [[[]|e] w'].
Qed.

(** X25.  An override in the event is taken as it is: when the event has
    a "source_path" or a "target_path" entry that is [None] or otherwise
    empty, the handler answers 500 and touches nothing, whatever path the
    contract declares. *)
Theorem handler_empty_override
    (event : gmap string pyval) (now : string) (w : W)
    (contract : DataContract.t) (key : string) (v : pyval) :
  truthy (dict_get event "contract_path") = true →
  load_contract (dict_get event "contract_path") w = Done contract →
  key = "source_path" ∨ key = "target_path" →
  event !! key = Some v →
  truthy v = false →
  handler event now w
  = ({| statusCode := 500;
        body := json_dumps
                  (Execution_failed
                     "Data contract execution failed: Source and target paths must be specified in contract or event") |},
     w).
Proof.
  intros Hpath Hload Hkey Hv Hfalsy.
  unfold handler, handler_try. cbn zeta. rewrite Hpath, Hload. handler_step.
  destruct Hkey as [-> | ->]; rewrite Hv; handler_step; rewrite Hfalsy; handler_step;
    [done|]. by rewrite orb_true_r.
Qed.

(** X26.  A source on S3 that names a bucket and no key is refused
    before the object store is asked: the answer is 500 with the text of
    the failed unpacking, whatever the services hold. *)
Theorem handler_source_without_key
    (event : gmap string pyval) (now : string) (w : W)
    (contract : DataContract.t) (bucket : string) :
  truthy (dict_get event "contract_path") = true →
  load_contract (dict_get event "contract_path") w = Done contract →
  default (DataContract.source_s3_path contract) (event !! "source_path")
    = PStr ("s3://" +:+ bucket) →
  (∀ a b, bucket ≠ a +:+ "/" +:+ b) →
  truthy (default (DataContract.target_s3_path contract)
            (event !! "target_path")) = true →
  handler event now w
  = ({| statusCode := 500;
        body := json_dumps
                  (Execution_failed
                     "Data contract execution failed: not enough values to unpack (expected 2, got 1)") |},
     w).
Proof.
  intros Hpath Hload Hsource Hbucket Htarget.
  unfold handler, handler_try. cbn zeta.
  rewrite Hpath, Hload, Hsource, Htarget.
  unfold _read_csv, _read_csv_from_s3, _is_s3_path, as_str.
  assert (String.prefix "s3://" ("s3://" +:+ bucket) = true) as ->.
  { apply prefix_app. by exists bucket. }
  unfold bucket_and_key. rewrite remove_from_scheme.
  by rewrite split_once_remove_from by by apply split_once_none.
Qed.
End HandlerProperties.

Section S3Properties.
Import lambda_handler.
Context `{PyText} {V W B : Type} `{EqDecision V} `{Services V W B}.

(** X27.  A path "s3://bucket/key" is read from and written to the object
    [key] of [bucket]: [_read_csv] parses the body that [get_object]
    returns for them, and [_write_csv] puts the CSV text of the table
    there, without touching the local file system. *)
Theorem s3_paths_address_bucket_and_key
    (bucket key : string) (df : pd.DataFrame V) (w : W) :
  (∀ a b, bucket ≠ a +:+ "/" +:+ b) →
  (∀ a b, bucket +:+ "/" +:+ key ≠ a +:+ "s3://" +:+ b) →
  let path := PStr ("s3://" +:+ bucket +:+ "/" +:+ key) in
  _read_csv path w
  = match get_object bucket key w with
    | Done obj => read_csv_body obj
    | Failed e => Failed e
    end
  ∧ _write_csv df path w = put_object bucket key (to_csv_text df) w.
Proof.
  intros Hbucket Hscheme path.
  assert (bucket_and_key ("s3://" +:+ bucket +:+ "/" +:+ key)
          = Done (bucket, key)) as Hparts.
  { unfold bucket_and_key.
    rewrite remove_from_scheme, remove_from_nothing by done.
    by rewrite split_once_first. }
  assert (String.prefix "s3://" ("s3://" +:+ bucket +:+ "/" +:+ key) = true)
    as Hprefix.
  { apply prefix_app. by eexists. }
  unfold path, _read_csv, _write_csv, _read_csv_from_s3, _write_csv_to_s3,
    _is_s3_path, as_str.
  by rewrite Hprefix, Hparts.
Qed.
End S3Properties.

(** * Closed instances of the further properties *)

Section MoreWitnesses.
Import Samples Toy lambda_handler ValidationEngine.

(** A text in which [sub] does not occur is no concatenation around it. *)
Lemma contains_free (sub s : string) :
  contains sub s = false → ∀ a b, s ≠ a +:+ sub +:+ b.
Proof.
  intros Hfree a. induction a as [|c a IH] in s, Hfree |- *; intros b ->.
  - destruct (sub +:+ b) as [|c rest] eqn:E; cbn in Hfree.
    + destruct sub; [by destruct b|done].
    + apply orb_false_elim in Hfree as [Hprefix _].
      rewrite <- E in Hprefix.
      assert (String.prefix sub (sub +:+ b) = true) as Hyes
        by (apply prefix_app; by exists b).
      congruence.
  - change (String c a +:+ sub +:+ b) with (String c (a +:+ sub +:+ b)) in Hfree.
    cbn [contains] in Hfree. apply orb_false_elim in Hfree as [_ Hrest].
    by apply (IH _ Hrest b).
Defined.

Lemma well_formed_two_rows : well_formed two_rows.
Proof.
  split.
  - apply (bool_decide_unpack _). vm_compute. exact I.
  - intros col s Hin. cbn in Hin.
    repeat (apply elem_of_cons in Hin as [[= -> ->]|Hin]; [reflexivity|]).
    by apply elem_of_nil in Hin.
Defined.


(** The same label under two declared types, two tables with the labels
    "id" and "age". *)
Lemma validate_schema_names_only_witness :
  validate_schema
    (ValidationEngine.init {[ "columns" := PDict {[ "id" := PStr "integer" ]} ]})
    two_rows
  = validate_schema
      (ValidationEngine.init {[ "columns" := PDict {[ "id" := PStr "string" ]} ]})
      sparse.
Proof.
  apply (validate_schema_names_only _ _ _ _
           {[ "id" := PStr "integer" ]} {[ "id" := PStr "string" ]}).
  - vm_compute; reflexivity.
  - vm_compute; reflexivity.
  - intros k. destruct (decide (k = "id")) as [->|Hk].
    + split; intros _; by eexists.
    + rewrite !lookup_singleton_ne by done. reflexivity.
  - intros k. reflexivity.
Defined.

(** Two columns labelled "age": the [except] branch answers. *)
Lemma data_quality_bounds_witness :
  error (validate_data_quality (ValidationEngine.init ∅) repeated_label)
  = Some "cannot convert the series to <class 'int'>"
  ∧ duplicate_rows (validate_data_quality (ValidationEngine.init ∅) repeated_label)
    = 0
  ∧ ∀ col,
      is_Some (null_counts (validate_data_quality (ValidationEngine.init ∅)
                              repeated_label) !! col) →
      col ∈ pd.columns repeated_label.
Proof.
  destruct (data_quality_bounds (ValidationEngine.init ∅) repeated_label)
    as (_ & _ & _ & Hrepeated).
  apply Hrepeated.
  intros [Hfresh _]%NoDup_cons. apply Hfresh. by left.
Defined.

(** Two rows that differ. *)
Lemma no_duplicates_iff_distinct_rows_witness :
  duplicate_rows (validate_data_quality (ValidationEngine.init ∅) two_rows) = 0
  ↔ NoDup (pd.rows two_rows).
Proof.
  apply (no_duplicates_iff_distinct_rows (ValidationEngine.init ∅) two_rows).
  - apply well_formed_two_rows.
  - reflexivity.
Defined.

(** The "id" column of [sparse] has a missing value. *)
Lemma not_null_iff_no_missing_witness :
  validate_constraints (ValidationEngine.init ∅) sparse
    [constraint_on "not_null" "id" PNone] = true
  ↔ None ∉ [Some 1; Some 2; (None : option Z)].
Proof.
  apply (proj1 (not_null_iff_no_missing (ValidationEngine.init ∅) sparse
                  (constraint_on "not_null" "id" PNone) "id"
                  eq_refl eq_refl)).
  vm_compute; reflexivity.
Defined.

(** A constraint on a column "email" that the table lacks, behind a
    constraint that passes. *)
Lemma constraint_errors_fail_witness :
  validate_constraints (ValidationEngine.init ∅) two_rows
    [constraint_on "min_value" "age" (PInt 0);
     constraint_on "not_null" "email" PNone] = false.
Proof.
  apply (constraint_errors_fail _ _ _ (constraint_on "not_null" "email" PNone)).
  - by right; left.
  - vm_compute; reflexivity.
  - left. intros label Hlabel. vm_compute in Hlabel. injection Hlabel as <-.
    vm_compute. discriminate.
Defined.

(** Ages 18, 25 and 30 against a minimum of 18. *)
Lemma bounds_hold_for_every_value_witness :
  validate_constraints (ValidationEngine.init ∅) ages
    [constraint_on "min_value" "age" (PInt 18)] = true
  ↔ ∀ x, Some x ∈ [Some 18; Some 25; Some 30] → (inject_Z 18 <= inject_Z x)%Q.
Proof.
  destruct (bounds_hold_for_every_value (ValidationEngine.init ∅) ages
              (constraint_on "min_value" "age" (PInt 18)) "age"
              [Some 18; Some 25; Some 30] (PInt 18) (inject_Z 18)
              eq_refl eq_refl eq_refl eq_refl) as [Hmin _].
  - intros x Hx. rewrite !elem_of_cons in Hx.
    destruct Hx as [[= ->]|[[= ->]|[[= ->]|Hx%elem_of_nil]]];
      [reflexivity..|done].
  - apply Hmin. reflexivity.
Defined.


(** A rule set with a rule that [enforce_sla] does not know. *)
Lemma only_three_rules_are_read_witness :
  (enforce_sla (SLAEnforcer.init {[ "freshness_hours" := PInt 24 ]})
     "2024-05-01T00:00:00+00:00" two_rows).1
  = Ok {| timestamp := "2024-05-01T00:00:00+00:00"; sla_passed := true;
          violations := []; metrics := ∅ |}.
Proof.
  apply (only_three_rules_are_read
           (SLAEnforcer.init {[ "freshness_hours" := PInt 24 ]})
           (SLAEnforcer.init ∅)); vm_compute; reflexivity.
Defined.


(** The same minimum, with a maximum that the table exceeds. *)
Lemma non_numeric_min_rows_ends_evaluation_witness :
  (enforce_sla
     (SLAEnforcer.init (<[ "min_rows" := PStr "ten" ]> {[ "max_rows" := PInt 1 ]}))
     "2024-05-01T00:00:00+00:00" two_rows).1
  = Ok {| timestamp := "2024-05-01T00:00:00+00:00";
          sla_passed := false;
          violations := [error_message (TypeError "<" (PStr "ten"))];
          metrics := {[ "row_count" := PInt 2 ]} |}.
Proof.
  apply (non_numeric_min_rows_ends_evaluation
           (SLAEnforcer.init
              (<[ "min_rows" := PStr "ten" ]> {[ "max_rows" := PInt 1 ]}))
           "2024-05-01T00:00:00+00:00" two_rows (PStr "ten"));
    vm_compute; reflexivity.
Defined.



(** A key with a slash of its own. *)
Lemma bucket_and_key_of_s3_path_witness :
  bucket_and_key "s3://my-bucket/data/customers.csv"
  = Done ("my-bucket", "data/customers.csv").
Proof.
  apply (bucket_and_key_of_s3_path "my-bucket" "data/customers.csv");
    by apply contains_free.
Defined.

Lemma bucket_without_key_witness :
  bucket_and_key "s3://my-bucket"
  = Failed (Value_error "not enough values to unpack (expected 2, got 1)").
Proof. apply (bucket_without_key "my-bucket"). by apply contains_free. Defined.

(** A number where the path should be. *)
Lemma load_contract_failures_witness :
  load_contract (PInt 5) toy_files
  = Failed (Value_error
              "Failed to load contract: 'int' object has no attribute 'startswith'").
Proof. by apply (proj2 (load_contract_failures (PInt 5) toy_files)). Defined.

(** An event without any entry. *)
Lemma handler_missing_contract_path_witness :
  handler ∅ "2024-05-01T00:00:00+00:00" toy_files
  = ({| statusCode := 500;
        body := "Data contract execution failed: Missing required parameter: contract_path" |},
     toy_files).
Proof.
  rewrite (handler_missing_contract_path ∅ "2024-05-01T00:00:00+00:00" toy_files)
    by (vm_compute; reflexivity).
  reflexivity.
Defined.

(** Two rows against the contract that asks for a hundred: nothing is
    written. *)
Lemma handler_writes_only_after_success_witness :
  (handler {[ "contract_path" := PStr "strict.yaml" ]}
     "2024-05-01T00:00:00+00:00" toy_files).2 = toy_files.
Proof.
  apply (handler_writes_only_after_success
           {[ "contract_path" := PStr "strict.yaml" ]}
           "2024-05-01T00:00:00+00:00" toy_files).
  vm_compute; reflexivity.
Defined.

Lemma handler_rejects_invalid_data_witness :
  ∃ report,
    handler {[ "contract_path" := PStr "strict.yaml" ]}
      "2024-05-01T00:00:00+00:00" toy_files
    = ({| statusCode := 400;
          body := json_dumps (Validation_failed report) |}, toy_files)
    ∧ success report = Some false.
Proof.
  destruct (handler_rejects_invalid_data
              {[ "contract_path" := PStr "strict.yaml" ]}
              "2024-05-01T00:00:00+00:00" toy_files strict_contract two_rows)
    as [_ Hbody]; try (vm_compute; reflexivity).
  destruct Hbody as (report & Hreport & Hanswer); [vm_compute; reflexivity|].
  exists report. split; [exact Hanswer|].
  vm_compute in Hreport. injection Hreport as <-. reflexivity.
Defined.

(** Two rows against the contract that asks for one: the table is
    written to "out.csv". *)
Lemma handler_writes_the_validated_table_witness :
  ∃ report,
    handler {[ "contract_path" := PStr "contract.yaml" ]}
      "2024-05-01T00:00:00+00:00" toy_files
    = ({| statusCode := 200;
          body := json_dumps (Completed (PStr "Toy") 2 2 report) |},
       ("out.csv", "id,age") :: toy_files).
Proof.
  edestruct (handler_writes_the_validated_table
               {[ "contract_path" := PStr "contract.yaml" ]}
               "2024-05-01T00:00:00+00:00" toy_files toy_contract two_rows)
    as (report & _ & Hanswer); [vm_compute; reflexivity..|].
  exists report. exact Hanswer.
Defined.

(** An override that is [None], against a contract that has a source. *)
Lemma handler_empty_override_witness :
  handler (<[ "source_path" := PNone ]> {[ "contract_path" := PStr "contract.yaml" ]})
    "2024-05-01T00:00:00+00:00" toy_files
  = ({| statusCode := 500;
        body := "Data contract execution failed: Source and target paths must be specified in contract or event" |},
     toy_files).
Proof.
  rewrite (handler_empty_override
             (<[ "source_path" := PNone ]>
                {[ "contract_path" := PStr "contract.yaml" ]})
             "2024-05-01T00:00:00+00:00" toy_files toy_contract
             "source_path" PNone);
    [reflexivity|vm_compute; reflexivity|vm_compute; reflexivity|by left
    |vm_compute; reflexivity|reflexivity].
Defined.

(** A bucket without a key as the source. *)
Lemma handler_source_without_key_witness :
  handler (<[ "source_path" := PStr "s3://my-bucket" ]>
             {[ "contract_path" := PStr "contract.yaml" ]})
    "2024-05-01T00:00:00+00:00" toy_files
  = ({| statusCode := 500;
        body := "Data contract execution failed: not enough values to unpack (expected 2, got 1)" |},
     toy_files).
Proof.
  rewrite (handler_source_without_key
             (<[ "source_path" := PStr "s3://my-bucket" ]>
                {[ "contract_path" := PStr "contract.yaml" ]})
             "2024-05-01T00:00:00+00:00" toy_files toy_contract "my-bucket");
    [reflexivity|vm_compute; reflexivity|vm_compute; reflexivity
    |vm_compute; reflexivity|by apply contains_free|vm_compute; reflexivity].
Defined.

(** A write to the object "data/out.csv" of "my-bucket". *)
Lemma s3_paths_address_bucket_and_key_witness :
  _write_csv two_rows (PStr "s3://my-bucket/data/out.csv") toy_files
  = (Done tt, ("my-bucket/data/out.csv", "id,age") :: toy_files).
Proof.
  destruct (s3_paths_address_bucket_and_key "my-bucket" "data/out.csv"
              two_rows toy_files) as [_ Hwrite];
    [by apply contains_free..|].
  exact Hwrite.
Defined.
End MoreWitnesses.
